(** * Tabular viewer: a shallow embedding of [tabular_viewer.py]

    The program is a single Python module.  Its functions call four
    libraries (the text layer of [open], [csv.Sniffer], [pandas] and
    [pyreadstat]) and the page of the UI toolkit.  The libraries are taken as
    a record of functions ([Libs]); the file system, the page, the
    notifications and the sequence of library calls are the components of an
    explicit state ([World]) threaded through a state-and-exception monad. *)

From Stdlib Require Import String Ascii List ZArith NArith Lia Bool.
From stdpp Require Import gmap strings list fin_maps pretty.

Local Open Scope string_scope.
Local Open Scope list_scope.

(** ** Python strings: [str.split], [str.lower], truthiness *)

(** File paths, delimiters and sheet names are [string]s.  A path with
    characters outside ASCII is read as its UTF-8 octets: [lower_char] leaves
    them alone, and no character outside ASCII lower-cases to a letter of a
    supported extension name, so the dispatch of [read_file] is not
    affected. *)

Definition lower_char (c : ascii) : ascii :=
  let n := nat_of_ascii c in
  if (65 <=? n)%nat && (n <=? 90)%nat then ascii_of_nat (n + 32) else c.

Fixpoint lower (s : string) : string :=
  match s with
  | EmptyString => EmptyString
  | String c rest => String (lower_char c) (lower rest)
  end.

(** [s.split(c)] for a one-character separator: never empty, and
    [''.split(c) = ['']]. *)
Fixpoint split (c : ascii) (s : string) : list string :=
  match s with
  | EmptyString => [EmptyString]
  | String a rest =>
      if Ascii.eqb a c then EmptyString :: split c rest
      else match split c rest with
           | [] => [String a EmptyString]
           | h :: t => String a h :: t
           end
  end.

(** [l[-1]] on a list that is never empty here. *)
Definition last_item (l : list string) : string := List.last l EmptyString.

Fixpoint contains (c : ascii) (s : string) : bool :=
  match s with
  | EmptyString => false
  | String a rest => Ascii.eqb a c || contains c rest
  end.

(** Truthiness of a [str]: only the empty string is falsy. *)
Definition truthy_str (s : string) : bool := negb (s =? "")%string.

(** Truthiness of an optional [str]: [None] and [''] are falsy. *)
Definition truthy (o : option string) : bool :=
  match o with
  | None => false
  | Some s => truthy_str s
  end.

(** ** Data *)

Definition bytes := string.

(** A decoded [str] read from a file: a sequence of code points. *)
Definition text := list N.

Inductive scalar :=
| SInt (z : Z)
| SText (s : string)
| SMissing.

Record DataFrame := {
  columns : list string;
  rows : list (list scalar)
}.

(** [df.head(n)] *)
Definition head (n : nat) (df : DataFrame) : DataFrame :=
  {| columns := columns df; rows := take n (rows df) |}.

(** A Python [dict] with [str] keys, in insertion order. *)
Fixpoint dict_set {V : Type} (k : string) (v : V) (d : list (string * V))
  : list (string * V) :=
  match d with
  | [] => [(k, v)]
  | (k', v') :: rest =>
      if (k' =? k)%string then (k', v) :: rest else (k', v') :: dict_set k v rest
  end.

Definition py_dict {V : Type} (items : list (string * V)) : list (string * V) :=
  fold_left (fun d kv => dict_set (fst kv) (snd kv) d) items [].

(** [df.to_dict('records')]: one mapping from column name to value per row. *)
Definition to_dict_records (df : DataFrame) : list (list (string * scalar)) :=
  map (fun r => py_dict (combine (columns df) r)) (rows df).

(** What [read_file] can return besides [None]: a frame, or the [dict] of
    frames that [pandas.read_excel] returns for [sheet_name=None]. *)
Inductive pyvalue :=
| PyDataFrame (df : DataFrame)
| PyDict (d : list (string * DataFrame)).

(** Exceptions: class name and message (operating-system messages are
    shortened).  Only subclasses of [Exception] are modelled. *)
Inductive exn := Exn (cls msg : string).

Definition exn_msg (e : exn) : string := let 'Exn _ m := e in m.

Inductive Res (A : Type) :=
| Ok (a : A)
| Raise (e : exn).
Arguments Ok {A} a.
Arguments Raise {A} e.

(** The one attribute of a [csv.Dialect] that the program reads. *)
Record Dialect := { delimiter : string }.

(** The [header] keyword of [pandas.read_csv].  The program never passes it,
    so every call runs with the default ['infer'], which (no [names] being
    passed) takes the column names from the first line. *)
Inductive header_arg :=
| HeaderInfer
| HeaderNone.

Definition metadata := list (string * string).

(** A workbook as [pandas.ExcelFile] sees it: the sheets in workbook order,
    each with the outcome of parsing it. *)
Definition workbook := list (string * Res DataFrame).

(** ** The libraries *)

Record Libs := {
  (** [open(path, 'r', newline='').read(n)] on a file holding these octets *)
  read_chars : bytes -> nat -> Res text;
  (** [csv.Sniffer().sniff(sample)] *)
  sniff : text -> Res Dialect;
  (** [csv.Sniffer().has_header(sample)] *)
  has_header : text -> Res bool;
  (** [pandas.read_csv(path, delimiter=d)] on a file holding these octets *)
  read_csv : bytes -> string -> header_arg -> Res DataFrame;
  (** the workbook behind [pandas.ExcelFile(path)] and [pandas.read_excel] *)
  open_workbook : bytes -> Res workbook;
  (** [pyreadstat.read_sas7bdat(path)] *)
  read_sas7bdat : bytes -> Res (DataFrame * metadata);
  (** [pyreadstat.read_xport(path)] *)
  read_xport : bytes -> Res (DataFrame * metadata)
}.

(** ** The world *)

Record file := { content : bytes; readable : bool }.

Record Table := {
  tcolumns : list string;
  trows : list (list (string * scalar))
}.

(** Elements of the page, in creation order; an element is named by its
    position, which never changes (a deleted element leaves [Deleted]).
    [DelimiterPrompt fp] is the row of lines 56-60 (input, Submit, Close) and
    [SheetPrompt fp names] the row of lines 66-70 (select, Load, Close), each
    with the file path its buttons captured; [Cleared] is a container after
    [clear()]; [Card label table] is the card of lines 166-170, whose table
    (and Close button) is missing when building it failed. *)
Inductive element :=
| DelimiterPrompt (filepath : string)
| SheetPrompt (filepath : string) (options : list string)
| Cleared
| Card (label : string) (table : option Table)
| Deleted.

Inductive call :=
| COpen (path : string)
| CHasHeader (sample : text)
| CSniff (sample : text)
| CReadCsv (path delim : string) (header : header_arg)
| CExcelFile (path : string)
| CReadExcel (path : string) (sheet_name : option string)
| CReadSas (path : string)
| CReadXport (path : string).

Definition is_loader_call (c : call) : bool :=
  match c with
  | CReadCsv _ _ _ | CReadExcel _ _ | CReadSas _ | CReadXport _ => true
  | _ => false
  end.

Record World := {
  files : gmap string file;
  temp_exists : bool;
  page : list element;
  notes : list string;
  trace : list call;
  running : bool;
  (** for an element made by the handler of a button: the row that holds
      the button, inside which the toolkit builds the element *)
  parents : gmap nat nat
}.

Definition with_files (f : gmap string file) (w : World) : World :=
  {| files := f; temp_exists := temp_exists w; page := page w;
     notes := notes w; trace := trace w; running := running w;
     parents := parents w |}.

Definition with_temp (b : bool) (w : World) : World :=
  {| files := files w; temp_exists := b; page := page w;
     notes := notes w; trace := trace w; running := running w;
     parents := parents w |}.

Definition with_page (p : list element) (w : World) : World :=
  {| files := files w; temp_exists := temp_exists w; page := p;
     notes := notes w; trace := trace w; running := running w;
     parents := parents w |}.

Definition with_notes (n : list string) (w : World) : World :=
  {| files := files w; temp_exists := temp_exists w; page := page w;
     notes := n; trace := trace w; running := running w;
     parents := parents w |}.

Definition with_trace (t : list call) (w : World) : World :=
  {| files := files w; temp_exists := temp_exists w; page := page w;
     notes := notes w; trace := t; running := running w;
     parents := parents w |}.

Definition with_running (b : bool) (w : World) : World :=
  {| files := files w; temp_exists := temp_exists w; page := page w;
     notes := notes w; trace := trace w; running := b;
     parents := parents w |}.

Definition with_parents (p : gmap nat nat) (w : World) : World :=
  {| files := files w; temp_exists := temp_exists w; page := page w;
     notes := notes w; trace := trace w; running := running w;
     parents := p |}.

(** ** The monad: state, and exceptions that keep the state *)

Definition M (A : Type) : Type := World -> Res A * World.

Definition ret {A} (a : A) : M A := fun w => (Ok a, w).

Definition bind {A B} (m : M A) (k : A -> M B) : M B :=
  fun w =>
    match m w with
    | (Ok a, w') => k a w'
    | (Raise e, w') => (Raise e, w')
    end.

Definition raise {A} (e : exn) : M A := fun w => (Raise e, w).

(** [try: body  except Exception as e: handler(e)] *)
Definition try_except {A} (body : M A) (handler : exn -> M A) : M A :=
  fun w =>
    match body w with
    | (Ok a, w') => (Ok a, w')
    | (Raise e, w') => handler e w'
    end.

Definition lift {A} (r : Res A) : M A := fun w => (r, w).

Declare Scope py_scope.
Delimit Scope py_scope with py.
Notation "x <- c1 ;; c2" := (bind c1 (fun x => c2))
  (at level 100, c1 at next level, right associativity) : py_scope.
Notation "c1 ;;; c2" := (bind c1 (fun _ => c2))
  (at level 100, right associativity) : py_scope.
Local Open Scope py_scope.

(** ** Operating system and UI primitives *)

Definition log (c : call) : M unit :=
  fun w => (Ok tt, with_trace (trace w ++ [c]) w).

Definition temp_prefix : string := "temp/".

Definition in_temp (path : string) : bool := String.prefix temp_prefix path.

(** A name that denotes an entry of a directory: not empty, no separator,
    not [.] or [..]. *)
Definition plain_name (name : string) : bool :=
  truthy_str name && negb (contains "/" name)
  && negb (name =? ".")%string && negb (name =? "..")%string.

(** Opening a file for reading. *)
Definition open_read (path : string) : M bytes :=
  fun w =>
    match files w !! path with
    | None => (Raise (Exn "FileNotFoundError" "No such file or directory"), w)
    | Some f =>
        if readable f then (Ok (content f), w)
        else (Raise (Exn "PermissionError" "Permission denied"), w)
    end.

(** *** Resolving a path

    A location of the tree around the working directory, innermost component
    first: [["a.csv"; "temp"]] is [temp/a.csv], [["x.csv"]] is a file of the
    working directory, [[".."]] is its parent. *)
Definition location := list string.

(** The directory above a directory. *)
Definition up (d : location) : location :=
  match d with
  | [] => [".."]
  | c :: rest => if (c =? "..")%string then ".." :: d else rest
  end.

(** The directories there are: the working directory, the directories above
    it, and [temp] when it exists.  The program makes no other directory, and
    the model has none: a path through any other name is not found. *)
Definition is_dir (temp : bool) (d : location) : bool :=
  forallb (String.eqb "..") d || (temp && bool_decide (d = ["temp"])).

(** Walking the components of a relative path from a directory, as the
    operating system does for a file to open: [.] and empty components stay,
    [..] goes up, a name enters a directory that must exist; the last
    component names the file, which must not be a directory.  The walk tells
    whether the path opens and which file it opens; of the error of a path
    that does not open, only that it is raised matters here. *)
Fixpoint walk (temp : bool) (cur : location) (comps : list string)
  : Res location :=
  match comps with
  | [] => Raise (Exn "IsADirectoryError" "Is a directory")
  | [c] =>
      if (c =? "")%string || (c =? ".")%string || (c =? "..")%string
         || is_dir temp (c :: cur)
      then Raise (Exn "IsADirectoryError" "Is a directory")
      else Ok (c :: cur)
  | c :: rest =>
      if (c =? "")%string || (c =? ".")%string then walk temp cur rest
      else if (c =? "..")%string then walk temp (up cur) rest
      else if is_dir temp (c :: cur) then walk temp (c :: cur) rest
      else Raise (Exn "FileNotFoundError" "No such file or directory")
  end.

Definition resolve (temp : bool) (path : string) : Res location :=
  walk temp [] (split "/" path).

Fixpoint join_path (comps : list string) : string :=
  match comps with
  | [] => ""
  | [c] => c
  | c :: rest => c +:+ "/" +:+ join_path rest
  end.

(** The path that spells a location without [.], [..] inside or doubled
    separators. *)
Definition path_string (l : location) : string := join_path (rev l).

Definition resolves_to (temp : bool) (path : string) (target : location)
  : bool :=
  match resolve temp path with
  | Ok t => bool_decide (t = target)
  | Raise _ => false
  end.

(** Writing a file through one of its paths.  [files] maps a path, as it is
    spelled, to what opening it finds; the world records a file under the
    path without detours and under the spellings [temp/...] that uploads
    use, and a write through one of them is seen through all of them. *)
Definition write_through (target : location) (path : string) (f : file)
  (m : gmap string file) : gmap string file :=
  <[path := f]>
    (<[path_string target := f]>
       (map_imap
          (fun k old =>
             if in_temp k && resolves_to true k target then Some f
             else Some old) m)).

(** [open(path, 'wb')] followed by [write(data)], for a relative path. *)
Definition open_write (path : string) (data : bytes) : M unit :=
  fun w =>
    match resolve (temp_exists w) path with
    | Raise e => (Raise e, w)
    | Ok target =>
        (Ok tt,
         with_files
           (write_through target path
              {| content := data; readable := true |} (files w)) w)
    end.

(** [os.path.exists('temp')] *)
Definition os_path_exists_temp : M bool := fun w => (Ok (temp_exists w), w).

(** [os.makedirs('temp')] *)
Definition os_makedirs_temp : M unit := fun w => (Ok tt, with_temp true w).

(** [shutil.rmtree('temp')] *)
Definition shutil_rmtree_temp : M unit :=
  fun w =>
    (Ok tt,
     with_temp false
       (with_files (filter (fun kv => in_temp (fst kv) = false) (files w)) w)).

(** [app.shutdown()] *)
Definition app_shutdown : M unit := fun w => (Ok tt, with_running false w).

(** Creating an element: it is appended to the page; the result names it. *)
Definition add_element (e : element) : M nat :=
  fun w => (Ok (length (page w)), with_page (page w ++ [e]) w).

Definition set_element (i : nat) (e : element) : M unit :=
  fun w => (Ok tt, with_page (<[i := e]> (page w)) w).

(** [ui.notify(msg, type='negative')] *)
Definition ui_notify (msg : string) : M unit :=
  fun w => (Ok tt, with_notes (notes w ++ [msg]) w).

(** ** The program *)

Section Program.

Variable L : Libs.

(** [with open(filepath, 'r', newline='') as file: file.read(n)] *)
Definition file_read (filepath : string) (n : nat) : M text :=
  log (COpen filepath) ;;;
  b <- open_read filepath ;;
  lift (read_chars L b n).

Definition csv_has_header (sample : text) : M bool :=
  log (CHasHeader sample) ;;; lift (has_header L sample).

Definition csv_sniff (sample : text) : M Dialect :=
  log (CSniff sample) ;;; lift (sniff L sample).

(** [pd.read_csv(filepath, delimiter=delimiter)] *)
Definition pd_read_csv (filepath delim : string) : M DataFrame :=
  log (CReadCsv filepath delim HeaderInfer) ;;;
  b <- open_read filepath ;;
  lift (read_csv L b delim HeaderInfer).

(** [pd.ExcelFile(filepath)] *)
Definition pd_ExcelFile (filepath : string) : M workbook :=
  log (CExcelFile filepath) ;;;
  b <- open_read filepath ;;
  lift (open_workbook L b).

Definition sheet_names (xl : workbook) : list string := map fst xl.

Fixpoint find_sheet (name : string) (xl : workbook) : option (Res DataFrame) :=
  match xl with
  | [] => None
  | (n, r) :: rest => if (n =? name)%string then Some r else find_sheet name rest
  end.

(** Every sheet parsed, in workbook order, into a [dict]; the first failure
    is raised. *)
Fixpoint all_sheets_from (acc : list (string * DataFrame)) (xl : workbook)
  : Res (list (string * DataFrame)) :=
  match xl with
  | [] => Ok acc
  | (n, Ok df) :: rest => all_sheets_from (dict_set n df acc) rest
  | (_, Raise e) :: _ => Raise e
  end.

Definition all_sheets (xl : workbook) : Res (list (string * DataFrame)) :=
  all_sheets_from [] xl.

(** [pd.read_excel(filepath, sheet_name=sheet_name)]: a name selects that
    sheet and gives a frame; [None] selects all sheets and gives a [dict]
    from sheet name to frame. *)
Definition pd_read_excel (filepath : string) (sheet_name : option string)
  : M pyvalue :=
  log (CReadExcel filepath sheet_name) ;;;
  b <- open_read filepath ;;
  xl <- lift (open_workbook L b) ;;
  match sheet_name with
  | None => d <- lift (all_sheets xl) ;; ret (PyDict d)
  | Some name =>
      match find_sheet name xl with
      | None =>
          raise (Exn "ValueError"
                   ("Worksheet named '" +:+ name +:+ "' not found"))
      | Some r => df <- lift r ;; ret (PyDataFrame df)
      end
  end.

Definition pyreadstat_read_sas7bdat (filepath : string)
  : M (DataFrame * metadata) :=
  log (CReadSas filepath) ;;;
  b <- open_read filepath ;;
  lift (read_sas7bdat L b).

Definition pyreadstat_read_xport (filepath : string)
  : M (DataFrame * metadata) :=
  log (CReadXport filepath) ;;;
  b <- open_read filepath ;;
  lift (read_xport L b).

(** [detect_csv_delimiter], lines 22-28. *)
Definition detect_csv_delimiter (filepath : string) : M (option string) :=
  try_except
    (sample <- file_read filepath 2048 ;;
     h <- csv_has_header sample ;;
     if h : bool then d <- csv_sniff sample ;; ret (Some (delimiter d))
     else ret (Some ","))
    (fun _ => ret None).

(** The extension of line 51: [filepath.split('.')[-1].lower()]. *)
Definition ext_of (filepath : string) : string :=
  lower (last_item (split "." filepath)).

Definition is_csv_ext (ext : string) : bool :=
  (ext =? "csv")%string || (ext =? "txt")%string.

Definition is_excel_ext (ext : string) : bool :=
  (ext =? "xls")%string || (ext =? "xlsx")%string || (ext =? "xlsm")%string
  || (ext =? "xltx")%string || (ext =? "xltm")%string.

Definition supported_extensions : list string :=
  ["csv"; "txt"; "xls"; "xlsx"; "xlsm"; "xltx"; "xltm"; "sas7bdat"; "xpt"].

Definition is_supported (ext : string) : bool :=
  existsb (String.eqb ext) supported_extensions.

(** The [case 'csv' | 'txt'] arm, lines 54-62. *)
Definition read_file_csv (filepath : string) : M (option pyvalue) :=
  delim <- detect_csv_delimiter filepath ;;
  if negb (truthy delim) then
    add_element (DelimiterPrompt filepath) ;;; ret None
  else
    df <- pd_read_csv filepath (default "" delim) ;;
    ret (Some (PyDataFrame df)).

(** The Excel arm, lines 64-72. *)
Definition read_file_excel (filepath : string) (sheet_name : option string)
  : M (option pyvalue) :=
  xl <- pd_ExcelFile filepath ;;
  if (1 <? length (sheet_names xl))%nat && negb (truthy sheet_name) then
    add_element (SheetPrompt filepath (sheet_names xl)) ;;; ret None
  else
    v <- pd_read_excel filepath sheet_name ;;
    ret (Some v).

(** The [case 'sas7bdat'] arm, lines 74-75. *)
Definition read_file_sas7bdat (filepath : string) : M (option pyvalue) :=
  p <- pyreadstat_read_sas7bdat filepath ;;
  ret (Some (PyDataFrame (fst p))).

(** The [case 'xpt'] arm, lines 77-78. *)
Definition read_file_xpt (filepath : string) : M (option pyvalue) :=
  p <- pyreadstat_read_xport filepath ;;
  ret (Some (PyDataFrame (fst p))).

(** [read_file], lines 51-80.  [None] is the result of the two arms that
    leave a prompt on the page. *)
Definition read_file (filepath : string) (sheet_name : option string)
  : M (option pyvalue) :=
  let ext := ext_of filepath in
  if is_csv_ext ext then read_file_csv filepath
  else if is_excel_ext ext then read_file_excel filepath sheet_name
  else if (ext =? "sas7bdat")%string then read_file_sas7bdat filepath
  else if (ext =? "xpt")%string then read_file_xpt filepath
  else raise (Exn "ValueError" "Unsupported file format").

(** [display_table], lines 166-170.  The card and its label exist before the
    table is built; [df.columns] on a [dict] raises. *)
Definition display_table (filename : string) (df : pyvalue) : M unit :=
  let label := "Preview of " +:+ filename in
  card <- add_element (Card label None) ;;
  match df with
  | PyDataFrame d =>
      set_element card
        (Card label
           (Some {| tcolumns := columns d;
                    trows := to_dict_records (head 10 d) |}))
  | PyDict _ =>
      raise (Exn "AttributeError" "'dict' object has no attribute 'columns'")
  end.

(** [handle_excel_sheet], lines 95-97. *)
Definition handle_excel_sheet (filepath : string) (sheet_name : option string)
  (container : nat) : M unit :=
  df <- read_file filepath sheet_name ;;
  match df with
  | Some v => display_table filepath v
  | None => ret tt
  end.

(** [handle_manual_delimiter], lines 112-117.  The row holds its input and
    its two buttons and nothing else when it is cleared: what a handler
    builds inside this row, it builds after the [clear()] (lemmas
    [delimiter_rows_hold_nothing] and [clear_row_delimiter_prompt]). *)
Definition handle_manual_delimiter (filepath delim : string) (container : nat)
  : M unit :=
  try_except
    (df <- pd_read_csv filepath delim ;;
     set_element container Cleared ;;;
     display_table filepath (PyDataFrame df))
    (fun e => ui_notify ("Error: " +:+ exn_msg e)).

(** [handle_upload], lines 134-148. *)
Definition handle_upload (name : string) (data : bytes) : M unit :=
  try_except
    (ex <- os_path_exists_temp ;;
     (if negb ex then os_makedirs_temp else ret tt) ;;;
     let filename := temp_prefix +:+ name in
     open_write filename data ;;;
     df <- read_file filename None ;;
     match df with
     | Some v => display_table filename v
     | None => ret tt
     end)
    (fun e => ui_notify ("Error: " +:+ exn_msg e)).

(** [remove_card], lines 184-185. *)
Definition remove_card (card : nat) : M unit :=
  set_element card Cleared ;;;
  set_element card Deleted.

(** [shutdown], lines 196-198. *)
Definition shutdown : M unit :=
  ex <- os_path_exists_temp ;;
  (if ex : bool then shutil_rmtree_temp else ret tt) ;;;
  app_shutdown.

(** ** User events

    Each button exists while its element is on the page; its handler is the
    closure the program attached to it. *)
Inductive event :=
| Upload (name : string) (data : bytes)
| SubmitDelimiter (container : nat) (value : string)
| LoadSheet (container : nat) (value : option string)
| ClosePrompt (container : nat)
| CloseCard (card : nat)
| Shutdown.

(** The toolkit runs the handler of a button inside the row that holds the
    button: every element the handler makes is built inside that row. *)
Definition adopt (c : nat) (first : nat) (w : World) : World :=
  with_parents
    (foldr (fun i m => <[i := c]> m) (parents w)
       (seq first (length (page w) - first))) w.

Definition inside_row {A : Type} (c : nat) (m : M A) : M A :=
  fun w =>
    match m w with
    | (r, w') => (r, adopt c (length (page w)) w')
    end.

(** The elements inside row [c], directly or through rows inside it.  A
    parent is always older than its children, so one pass in creation order
    finds them. *)
Fixpoint removed_by (par : gmap nat nat) (c : nat) (ids : list nat)
  (gone : gset nat) : gset nat :=
  match ids with
  | [] => gone
  | i :: rest =>
      let g := match par !! i with
               | Some p => bool_decide (p = c) || bool_decide (p ∈ gone)
               | None => false
               end in
      removed_by par c rest (if g then {[i]} ∪ gone else gone)
  end.

Definition inside (w : World) (c : nat) : gset nat :=
  removed_by (parents w) c (seq 0 (length (page w))) ∅.

(** [container.clear()] on a prompt row when its Close button is clicked:
    the row is emptied, and what was built inside it is deleted with it. *)
Definition clear_row (c : nat) : M unit :=
  fun w =>
    (Ok tt,
     with_page
       (<[c := Cleared]>
          (imap (fun i e => if bool_decide (i ∈ inside w c) then Deleted else e)
             (page w))) w).

Definition handler (ev : event) : M unit :=
  match ev with
  | Upload name data => handle_upload name data
  | SubmitDelimiter c v =>
      fun w =>
        match page w !! c with
        | Some (DelimiterPrompt fp) =>
            inside_row c (handle_manual_delimiter fp v c) w
        | _ => (Ok tt, w)
        end
  | LoadSheet c v =>
      fun w =>
        match page w !! c with
        | Some (SheetPrompt fp _) => inside_row c (handle_excel_sheet fp v c) w
        | _ => (Ok tt, w)
        end
  | ClosePrompt c =>
      fun w =>
        match page w !! c with
        | Some (DelimiterPrompt _) | Some (SheetPrompt _ _) => clear_row c w
        | _ => (Ok tt, w)
        end
  | CloseCard c =>
      fun w =>
        match page w !! c with
        | Some (Card _ (Some _)) => remove_card c w
        | _ => (Ok tt, w)
        end
  | Shutdown => shutdown
  end.

(** One event: the world after its handler has run.  An exception that
    leaves a handler is dropped by the toolkit. *)
Definition step (w : World) (ev : event) : World := snd (handler ev w).

Definition run (w : World) (evs : list event) : World := fold_left step evs w.

End Program.

(** ** A reference instance of the libraries

    Used to run the program on concrete files.  The text layer is UTF-8 (the
    default of Python on Linux and macOS); the sniffer and the CSV reader are
    small stand-ins that agree with [csv.Sniffer] and [pandas.read_csv] on
    the quote-free files and one-character delimiters used below; workbooks
    are given by a table from file contents to sheets. *)

Module Ref.

Definition octets (b : bytes) : list N := map N_of_ascii (list_ascii_of_string b).

Definition is_cont (b : N) : bool := ((128 <=? b) && (b <=? 191))%N.

Definition decode_error : exn :=
  Exn "UnicodeDecodeError" "'utf-8' codec can't decode byte".

Definition cons_ok (c : N) (r : Res text) : Res text :=
  match r with
  | Ok t => Ok (c :: t)
  | Raise e => Raise e
  end.

(** Strict UTF-8: shortest forms only, no surrogates, at most U+10FFFF. *)
Fixpoint utf8_decode (l : list N) : Res text :=
  match l with
  | [] => Ok []
  | b0 :: r0 =>
      if (b0 <? 128)%N then cons_ok b0 (utf8_decode r0)
      else
        match r0 with
        | [] => Raise decode_error
        | b1 :: r1 =>
            if ((194 <=? b0) && (b0 <=? 223) && is_cont b1)%N then
              cons_ok ((b0 - 192) * 64 + (b1 - 128))%N (utf8_decode r1)
            else
              match r1 with
              | [] => Raise decode_error
              | b2 :: r2 =>
                  if ((224 <=? b0) && (b0 <=? 239) && is_cont b1 && is_cont b2
                      && (negb (b0 =? 224) || (160 <=? b1))
                      && (negb (b0 =? 237) || (b1 <=? 159)))%N then
                    cons_ok ((b0 - 224) * 4096 + (b1 - 128) * 64 + (b2 - 128))%N
                      (utf8_decode r2)
                  else
                    match r2 with
                    | [] => Raise decode_error
                    | b3 :: r3 =>
                        if ((240 <=? b0) && (b0 <=? 244) && is_cont b1
                            && is_cont b2 && is_cont b3
                            && (negb (b0 =? 240) || (144 <=? b1))
                            && (negb (b0 =? 244) || (b1 <=? 143)))%N then
                          cons_ok ((b0 - 240) * 262144 + (b1 - 128) * 4096
                                   + (b2 - 128) * 64 + (b3 - 128))%N
                            (utf8_decode r3)
                        else Raise decode_error
                    end
              end
        end
  end.

Definition ref_read_chars (b : bytes) (n : nat) : Res text :=
  match utf8_decode (octets b) with
  | Ok t => Ok (take n t)
  | Raise e => Raise e
  end.

Fixpoint first_line (t : text) : text :=
  match t with
  | [] => []
  | c :: rest => if (c =? 10)%N then [] else c :: first_line rest
  end.

Definition candidates : list N := [44; 59; 9; 124]%N.

Definition occurs (c : N) (t : text) : bool := existsb (N.eqb c) t.

Definition char_string (c : N) : string := String (ascii_of_N c) EmptyString.

(** The first of [, ; TAB |] that occurs in the first line. *)
Definition ref_sniff (sample : text) : Res Dialect :=
  match filter (fun c => occurs c (first_line sample) = true) candidates with
  | c :: _ => Ok {| delimiter := char_string c |}
  | [] => Raise (Exn "Error" "Could not determine delimiter")
  end.

Definition is_digit (c : N) : bool := ((48 <=? c) && (c <=? 57))%N.

(** As [csv.Sniffer.has_header], this sniffs first; the first line is then
    a header when it does not start with a digit. *)
Definition ref_has_header (sample : text) : Res bool :=
  match ref_sniff sample with
  | Raise e => Raise e
  | Ok _ =>
      match sample with
      | c :: _ => Ok (negb (is_digit c))
      | [] => Ok false
      end
  end.

Definition nl : string := String (ascii_of_nat 10) EmptyString.

(** Lines of a file: split at line feeds, without the empty piece after a
    final line feed. *)
Definition lines (b : bytes) : list string :=
  let l := split (ascii_of_nat 10) b in
  if (last_item l =? "")%string then removelast l else l.

Definition all_digits (s : string) : bool :=
  forallb (fun c => is_digit (N_of_ascii c)) (list_ascii_of_string s).

Definition digit_value (s : string) : Z :=
  fold_left (fun acc c => (acc * 10 + (Z.of_N (N_of_ascii c) - 48))%Z)
    (list_ascii_of_string s) 0%Z.

Definition cell (s : string) : scalar :=
  if (s =? "")%string then SMissing
  else if all_digits s then SInt (digit_value s) else SText s.

Fixpoint pad (n : nat) (r : list scalar) : list scalar :=
  match n, r with
  | O, _ => []
  | S k, [] => SMissing :: pad k []
  | S k, x :: rest => x :: pad k rest
  end.

Definition ref_read_csv (b : bytes) (delim : string) (h : header_arg)
  : Res DataFrame :=
  match delim with
  | String d EmptyString =>
      match lines b with
      | [] => Raise (Exn "EmptyDataError" "No columns to parse from file")
      | first :: rest =>
          let cols := split d first in
          let width := length cols in
          let body := match h with HeaderInfer => rest | HeaderNone => first :: rest end in
          let names := match h with
                       | HeaderInfer => cols
                       | HeaderNone => map (fun i => pretty i) (seq 0 width)
                       end in
          if forallb (fun l => (length (split d l) <=? width)%nat) body then
            Ok {| columns := names;
                  rows := map (fun l => pad width (map cell (split d l))) body |}
          else Raise (Exn "ParserError" "Error tokenizing data")
      end
  | _ => Raise (Exn "ValueError" "delimiter must be a 1-character string")
  end.

Fixpoint join (sep : string) (l : list string) : string :=
  match l with
  | [] => ""
  | [x] => x
  | x :: rest => x +:+ sep +:+ join sep rest
  end.

Definition show_scalar (v : scalar) : string :=
  match v with
  | SInt z => pretty z
  | SText s => s
  | SMissing => ""
  end.

(** [df.to_csv(path, index=False)]: a header line, then one line per row. *)
Definition to_csv (df : DataFrame) : bytes :=
  join "" (map (fun l => join "," l +:+ nl)
             (columns df :: map (map show_scalar) (rows df))).

Fixpoint lookup_bytes {V : Type} (b : bytes) (table : list (bytes * V))
  : option V :=
  match table with
  | [] => None
  | (k, v) :: rest => if (k =? b)%string then Some v else lookup_bytes b rest
  end.

Definition ref_open_workbook (books : list (bytes * workbook)) (b : bytes)
  : Res workbook :=
  match lookup_bytes b books with
  | Some xl => Ok xl
  | None => Raise (Exn "BadZipFile" "File is not a zip file")
  end.

Definition read_stat (b : bytes) : Res (DataFrame * metadata) :=
  Raise (Exn "ReadstatError" "Invalid file, or file has unsupported features").

Definition libs (books : list (bytes * workbook)) : Libs :=
  {| read_chars := ref_read_chars;
     sniff := ref_sniff;
     has_header := ref_has_header;
     read_csv := ref_read_csv;
     open_workbook := ref_open_workbook books;
     read_sas7bdat := read_stat;
     read_xport := read_stat |}.

End Ref.

(** The world at start-up: nothing on disk, an empty page. *)
Definition initial : World :=
  {| files := ∅; temp_exists := false; page := []; notes := [];
     trace := []; running := true; parents := ∅ |}.

(** ** Worlds related by what a computation may change *)

(** [w] with elements appended to its page and calls appended to its
    trace. *)
Definition extend (w : World) (dp : list element) (dt : list call) : World :=
  {| files := files w; temp_exists := temp_exists w; page := page w ++ dp;
     notes := notes w; trace := trace w ++ dt; running := running w;
     parents := parents w |}.

(** A computation that reads at most the file at [fp], and whose only
    effects are appended page elements and appended calls, both determined
    by that file. *)
Definition reads_only (fp : string) {A : Type} (m : M A) : Prop :=
  forall fo : option file, exists (r : Res A) dp dt,
    forall w, files w !! fp = fo -> m w = (r, extend w dp dt).

(** No path inside [temp/] names a file. *)
Definition no_temp_files (w : World) : Prop :=
  forall path, in_temp path = true -> files w !! path = None.

(** The directory [temp] is missing only when it holds nothing. *)
Definition temp_consistent (w : World) : Prop :=
  temp_exists w = false -> no_temp_files w.

(** What [handle_upload] does once the upload is on disk (lines 143-145). *)
Definition read_and_display (L : Libs) (filename : string) : M unit :=
  (df <- read_file L filename None ;;
   match df with
   | Some v => display_table filename v
   | None => ret tt
   end)%py.

(** The file that an upload leaves on disk. *)
Definition uploaded (data : bytes) : file := {| content := data; readable := true |}.

(** A directory of the model: some levels above the working directory, or
    [temp]. *)
Definition dir_loc (d : location) : Prop :=
  (exists n, d = repeat ".." n) \/ d = ["temp"].

(** What a path resolves to: a name that is no directory, in a directory. *)
Definition file_loc (t : location) : Prop :=
  exists c d, t = c :: d /\ dir_loc d /\ contains "/" c = false
    /\ c <> "" /\ c <> "." /\ c <> ".." /\ is_dir true (c :: d) = false.

(** The disk once an upload has been written through [temp/name]. *)
Definition stored_files (name : string) (data : bytes)
  (m : gmap string file) : gmap string file :=
  match resolve true (temp_prefix +:+ name) with
  | Ok target => write_through target (temp_prefix +:+ name) (uploaded data) m
  | Raise _ => m
  end.

(** The world once [handle_upload] has written the upload to disk. *)
Definition stored (name : string) (data : bytes) (w : World) : World :=
  {| files := stored_files name data (files w);
     temp_exists := true; page := page w; notes := notes w;
     trace := trace w; running := running w; parents := parents w |}.

Definition unsupported : exn := Exn "ValueError" "Unsupported file format".

(** A computation that leaves the disk as it found it. *)
Definition keeps_disk {A : Type} (m : M A) : Prop :=
  forall w, files (snd (m w)) = files w
            /\ temp_exists (snd (m w)) = temp_exists w.

(** ** Concrete files and worlds *)

Module Examples.

Import Ref.

(** A world whose disk holds one readable file. *)
Definition on_disk (path : string) (data : bytes) : World :=
  with_files {[ path := uploaded data ]} initial.

Definition people_csv : bytes :=
  "name,age" +:+ nl +:+ "ann,31" +:+ nl +:+ "bob,27" +:+ nl.

Definition people_semicolon_csv : bytes :=
  "name;age" +:+ nl +:+ "ann;31" +:+ nl +:+ "bob;27" +:+ nl.

(** Three rows of numbers and no header row. *)
Definition numbers_csv : bytes :=
  "1,2" +:+ nl +:+ "3,4" +:+ nl +:+ "5,6" +:+ nl.

Fixpoint repeat_string (n : nat) (s : string) : string :=
  match n with
  | O => ""
  | S k => s +:+ repeat_string k s
  end.

(** U+00E9 in UTF-8: one character, two octets. *)
Definition e_acute : string :=
  String (ascii_of_nat 195) (String (ascii_of_nat 169) EmptyString).

(** Two files with the same first 2048 octets (1024 accented letters), which
    differ only after them. *)
Definition accents_comma : bytes :=
  repeat_string 1024 e_acute +:+ ",x" +:+ nl +:+ "1,2" +:+ nl.

Definition accents_semicolon : bytes :=
  repeat_string 1024 e_acute +:+ ";x" +:+ nl +:+ "1;2" +:+ nl.

(** One column and ten rows; two columns and twelve rows. *)
Definition one_column : DataFrame :=
  {| columns := ["x"];
     rows := map (fun i => [SInt (Z.of_nat i)]) (seq 1 10) |}.

Definition two_columns : DataFrame :=
  {| columns := ["a"; "b"];
     rows := map (fun i => [SInt (Z.of_nat i); SInt (Z.of_nat (i + 20))])
               (seq 1 12) |}.

Definition single_column_csv : bytes :=
  "x" +:+ nl +:+ "1" +:+ nl +:+ "2" +:+ nl.

Definition pq_csv : bytes := "p,q" +:+ nl +:+ "7,8" +:+ nl.

(** Two workbooks, named by their contents. *)
Definition people : DataFrame :=
  {| columns := ["name"; "age"];
     rows := [[SText "ann"; SInt 31]; [SText "bob"; SInt 27]] |}.

Definition january : DataFrame :=
  {| columns := ["day"; "sales"]; rows := [[SInt 1; SInt 10]] |}.

Definition february : DataFrame :=
  {| columns := ["day"; "sales"]; rows := [[SInt 1; SInt 12]] |}.

Definition one_sheet_book : bytes := "workbook: Sheet1".

Definition two_sheet_book : bytes := "workbook: Jan, Feb".

Definition books : list (bytes * workbook) :=
  [(one_sheet_book, [("Sheet1", Ok people)]);
   (two_sheet_book, [("Jan", Ok january); ("Feb", Ok february)])].

End Examples.

(** ** Further vocabulary for the properties of the handlers *)

Definition is_prompt (e : element) : bool :=
  match e with
  | DelimiterPrompt _ | SheetPrompt _ _ => true
  | _ => false
  end.

(** The file path a prompt's buttons captured. *)
Definition prompt_path (e : element) : option string :=
  match e with
  | DelimiterPrompt fp | SheetPrompt fp _ => Some fp
  | _ => None
  end.

(** Every upload of a sequence of events carries an entry name. *)
Definition plain_uploads (evs : list event) : Prop :=
  Forall (fun ev => match ev with
                    | Upload name _ => plain_name name = true
                    | _ => True
                    end) evs.

(** A computation that leaves the page as it found it. *)
Definition keeps_page {A : Type} (m : M A) : Prop :=
  forall w, page (snd (m w)) = page w.

(** A computation that either returns [None] and appends one prompt for
    [fp] to the page, or returns something else and leaves the page alone. *)
Definition prompts_or_returns (fp : string) (m : M (option pyvalue)) : Prop :=
  forall w,
    (fst (m w) = Ok None
     /\ exists e, page (snd (m w)) = page w ++ [e]
                  /\ is_prompt e = true /\ prompt_path e = Some fp)
    \/ (fst (m w) <> Ok None /\ page (snd (m w)) = page w).

(** Rows and what is inside them: a row that holds something is on the page,
    and nothing is inside the row of a delimiter prompt. *)
Definition rows_consistent (w : World) : Prop :=
  forall i c, parents w !! i = Some c ->
    c < length (page w)
    /\ forall fp, page w !! c <> Some (DelimiterPrompt fp).

(** ** More concrete worlds *)

Module MoreExamples.

(** Libraries whose SAS reader answers every file with one frame and its
    variable labels. *)
Definition stat_libs : Libs :=
  {| read_chars := Ref.ref_read_chars;
     sniff := Ref.ref_sniff;
     has_header := Ref.ref_has_header;
     read_csv := Ref.ref_read_csv;
     open_workbook := Ref.ref_open_workbook [];
     read_sas7bdat := fun _ => Ok (Examples.people, [("name", "Full name")]);
     read_xport := Ref.read_stat |}.

(** A frame with two columns of the same name. *)
Definition twin_columns : DataFrame :=
  {| columns := ["a"; "a"]; rows := [[SInt 1; SInt 2]] |}.

(** A file of more than 2048 characters, and the same file with a tail in
    another delimiter. *)
Definition long_csv : bytes := Examples.repeat_string 100 Examples.people_csv.

Definition long_csv_with_tail : bytes := long_csv +:+ "x;y;z".

End MoreExamples.

(** * Properties *)

(** ** Strings *)

Lemma split_not_nil c s : split c s <> [].
Proof.
  destruct s as [|a s]; simpl; [discriminate|].
  destruct (Ascii.eqb a c); [discriminate|].
  destruct (split c s); discriminate.
Qed.

Lemma split_no_separator c s : contains c s = false -> split c s = [s].
Proof.
  induction s as [|a s IH]; simpl; [reflexivity|].
  intros H. apply orb_false_elim in H as [Ha Hs].
  rewrite Ha, (IH Hs). reflexivity.
Qed.

Lemma split_append c pre suf :
  split c (pre +:+ String c suf) = split c pre ++ split c suf.
Proof.
  induction pre as [|a pre IH]; simpl.
  - rewrite Ascii.eqb_refl. reflexivity.
  - destruct (Ascii.eqb a c); rewrite IH; [reflexivity|].
    pose proof (split_not_nil c pre) as Hne.
    destruct (split c pre); [contradiction|reflexivity].
Qed.

Lemma last_item_app l1 l2 : l2 <> [] -> last_item (l1 ++ l2) = last_item l2.
Proof.
  unfold last_item. intros Hne. induction l1 as [|x l1 IH]; [reflexivity|].
  simpl. destruct (l1 ++ l2) eqn:E; [|exact IH].
  apply app_eq_nil in E as [_ E]. contradiction.
Qed.

Lemma ext_of_suffix pre suf :
  contains "." suf = false -> ext_of (pre +:+ "." +:+ suf) = lower suf.
Proof.
  intros H. unfold ext_of.
  change (pre +:+ "." +:+ suf) with (pre +:+ String "." suf).
  rewrite split_append, last_item_app by apply split_not_nil.
  rewrite (split_no_separator _ _ H). reflexivity.
Qed.

Lemma ext_of_dotless fp : contains "." fp = false -> ext_of fp = lower fp.
Proof.
  intros H. unfold ext_of. rewrite (split_no_separator _ _ H). reflexivity.
Qed.

Lemma unsupported_arms ext :
  is_supported ext = false ->
  is_csv_ext ext = false /\ is_excel_ext ext = false
  /\ (ext =? "sas7bdat")%string = false /\ (ext =? "xpt")%string = false.
Proof.
  unfold is_supported, is_csv_ext, is_excel_ext. simpl. intros H.
  repeat (apply orb_false_elim in H as [?H H]).
  repeat match goal with Hx : (_ =? _)%string = false |- _ => rewrite Hx; clear Hx end.
  repeat split.
Qed.

(** ** Worlds *)

Lemma extend_nil w : extend w [] [] = w.
Proof. destruct w. unfold extend. simpl. rewrite !app_nil_r. reflexivity. Qed.

Lemma extend_extend w a b c d :
  extend (extend w a b) c d = extend w (a ++ c) (b ++ d).
Proof. unfold extend. simpl. rewrite !app_assoc. reflexivity. Qed.

(** ** Elements made inside a row *)

Lemma inside_row_snd {A} c (m : M A) w :
  snd (inside_row c m w) = adopt c (length (page w)) (snd (m w)).
Proof. unfold inside_row. destruct (m w). reflexivity. Qed.

Lemma inside_row_fst {A} c (m : M A) w : fst (inside_row c m w) = fst (m w).
Proof. unfold inside_row. destruct (m w). reflexivity. Qed.

(** Recording the row of new elements changes nothing else. *)
Ltac in_row :=
  rewrite ?inside_row_snd, ?inside_row_fst; unfold adopt, with_parents;
  cbn [files temp_exists page notes trace running].

(** ** Computations that only read one file *)

Section ReadsOnly.

Variable fp : string.

Lemma reads_only_ret {A} (a : A) : reads_only fp (ret a).
Proof.
  intros fo. exists (Ok a), [], []. intros w _. unfold ret.
  rewrite extend_nil. reflexivity.
Qed.

Lemma reads_only_raise {A} e : reads_only fp (@raise A e).
Proof.
  intros fo. exists (Raise e), [], []. intros w _. unfold raise.
  rewrite extend_nil. reflexivity.
Qed.

Lemma reads_only_lift {A} (r : Res A) : reads_only fp (lift r).
Proof.
  intros fo. exists r, [], []. intros w _. unfold lift.
  rewrite extend_nil. reflexivity.
Qed.

Lemma reads_only_log c : reads_only fp (log c).
Proof.
  intros fo. exists (Ok tt), [], [c]. intros w _. unfold log, extend, with_trace.
  simpl. rewrite app_nil_r. reflexivity.
Qed.

Lemma reads_only_prompt {A} e (a : A) :
  reads_only fp (add_element e ;;; ret a)%py.
Proof.
  intros fo. exists (Ok a), [e], []. intros w _.
  unfold bind, add_element, ret, extend, with_page. simpl.
  rewrite app_nil_r. reflexivity.
Qed.

Lemma reads_only_open_rb : reads_only fp (open_read fp).
Proof.
  intros fo. unfold open_read.
  destruct fo as [f|].
  - destruct (readable f) eqn:Hr.
    + exists (Ok (content f)), [], []. intros w ->. rewrite Hr, extend_nil. reflexivity.
    + exists (Raise (Exn "PermissionError" "Permission denied")), [], [].
      intros w ->. rewrite Hr, extend_nil. reflexivity.
  - exists (Raise (Exn "FileNotFoundError" "No such file or directory")), [], [].
    intros w ->. rewrite extend_nil. reflexivity.
Qed.

Lemma reads_only_bind {A B} (m : M A) (k : A -> M B) :
  reads_only fp m -> (forall a, reads_only fp (k a)) -> reads_only fp (bind m k).
Proof.
  intros Hm Hk fo. destruct (Hm fo) as (r & dp & dt & Hr).
  destruct r as [a|e].
  - destruct (Hk a fo) as (r' & dp' & dt' & Hr').
    exists r', (dp ++ dp'), (dt ++ dt'). intros w Hw. unfold bind.
    rewrite (Hr w Hw), (Hr' (extend w dp dt) Hw), extend_extend. reflexivity.
  - exists (Raise e), dp, dt. intros w Hw. unfold bind.
    rewrite (Hr w Hw). reflexivity.
Qed.

Lemma reads_only_try_except {A} (m : M A) (h : exn -> M A) :
  reads_only fp m -> (forall e, reads_only fp (h e)) ->
  reads_only fp (try_except m h).
Proof.
  intros Hm Hh fo. destruct (Hm fo) as (r & dp & dt & Hr).
  destruct r as [a|e].
  - exists (Ok a), dp, dt. intros w Hw. unfold try_except.
    rewrite (Hr w Hw). reflexivity.
  - destruct (Hh e fo) as (r' & dp' & dt' & Hr').
    exists r', (dp ++ dp'), (dt ++ dt'). intros w Hw. unfold try_except.
    rewrite (Hr w Hw), (Hr' (extend w dp dt) Hw), extend_extend. reflexivity.
Qed.

Lemma display_table_run filename v w :
  exists r c, display_table filename v w = (r, extend w [c] [])
    /\ match v with
       | PyDataFrame d =>
           r = Ok tt
           /\ c = Card ("Preview of " +:+ filename)
                    (Some {| tcolumns := columns d;
                             trows := to_dict_records (head 10 d) |})
       | PyDict _ =>
           r = Raise (Exn "AttributeError" "'dict' object has no attribute 'columns'")
           /\ c = Card ("Preview of " +:+ filename) None
       end.
Proof.
  unfold display_table, bind, add_element, set_element, raise, extend, with_page.
  destruct v as [d|d]; simpl.
  - eexists _, _. split; [|split; reflexivity].
    rewrite app_nil_r. f_equal. f_equal.
    rewrite insert_app_r_alt by lia. rewrite Nat.sub_diag. reflexivity.
  - eexists _, _. split; [|split; reflexivity].
    rewrite app_nil_r. reflexivity.
Qed.

Lemma reads_only_display_table filename v : reads_only fp (display_table filename v).
Proof.
  intros fo.
  destruct v as [d|d].
  - exists (Ok tt), [Card ("Preview of " +:+ filename)
                       (Some {| tcolumns := columns d;
                                trows := to_dict_records (head 10 d) |})], [].
    intros w _.
    destruct (display_table_run filename (PyDataFrame d) w) as (r & c & E & -> & ->).
    exact E.
  - exists (Raise (Exn "AttributeError" "'dict' object has no attribute 'columns'")),
      [Card ("Preview of " +:+ filename) None], [].
    intros w _.
    destruct (display_table_run filename (PyDict d) w) as (r & c & E & -> & ->).
    exact E.
Qed.

Create HintDb frame.

#[local] Hint Resolve reads_only_ret reads_only_raise reads_only_lift
  reads_only_log reads_only_prompt reads_only_open_rb
  reads_only_display_table : frame.

Ltac frame :=
  repeat first
    [ solve [auto with frame]
    | apply reads_only_bind; [|intros ?]
    | apply reads_only_try_except; [|intros ?]
    | match goal with
      | |- reads_only _ (if ?b then _ else _) => destruct b
      | |- reads_only _ (match ?x with _ => _ end) => destruct x
      end ].

Lemma reads_only_detect L : reads_only fp (detect_csv_delimiter L fp).
Proof. unfold detect_csv_delimiter, file_read, csv_has_header, csv_sniff. frame. Qed.

Lemma reads_only_read_file L sn : reads_only fp (read_file L fp sn).
Proof.
  unfold read_file, read_file_csv, read_file_excel, read_file_sas7bdat,
    read_file_xpt.
  pose proof (reads_only_detect L).
  unfold pd_read_csv, pd_ExcelFile, pd_read_excel, pyreadstat_read_sas7bdat,
    pyreadstat_read_xport.
  frame.
Qed.

Lemma reads_only_pd_read_csv L v : reads_only fp (pd_read_csv L fp v).
Proof. unfold pd_read_csv. frame. Qed.

Lemma reads_only_read_and_display L : reads_only fp (read_and_display L fp).
Proof.
  unfold read_and_display. pose proof (reads_only_read_file L None). frame.
Qed.

End ReadsOnly.

(** ** Paths *)

Lemma split_components c s : Forall (fun x => contains c x = false) (split c s).
Proof.
  induction s as [|a s IH]; simpl.
  - constructor; [reflexivity|constructor].
  - destruct (Ascii.eqb a c) eqn:E.
    + constructor; [reflexivity|exact IH].
    + destruct (split c s) as [|h t]; [repeat constructor; simpl; rewrite E; reflexivity|].
      inversion IH; subst. constructor; [|assumption].
      simpl. rewrite E. assumption.
Qed.

Lemma split_join l :
  l <> [] -> Forall (fun x => contains "/" x = false) l ->
  split "/" (join_path l) = l.
Proof.
  induction l as [|c l IH]; [congruence|]. intros _ H.
  inversion H as [|? ? Hc Hl]; subst.
  destruct l as [|c' l].
  - simpl. apply split_no_separator, Hc.
  - change (join_path (c :: c' :: l))
      with (c +:+ String "/" (join_path (c' :: l))).
    rewrite split_append, (split_no_separator _ _ Hc), IH by (congruence || assumption).
    reflexivity.
Qed.

Lemma is_dir_dir_loc d : is_dir true d = true -> dir_loc d.
Proof.
  unfold is_dir. intros H. apply orb_true_iff in H as [H|H].
  - left. exists (length d). induction d as [|c d IH]; [reflexivity|].
    cbn [forallb] in H. apply andb_true_iff in H as [Hc Hd].
    apply String.eqb_eq in Hc. subst c. simpl. f_equal. apply IH, Hd.
  - right. apply bool_decide_eq_true_1 in H. exact H.
Qed.

Lemma up_dir_loc d : dir_loc d -> dir_loc (up d).
Proof.
  intros [[n ->]| ->].
  - left. exists (S n). destruct n; reflexivity.
  - left. exists 0. reflexivity.
Qed.

Lemma walk_cons temp cur c c' rest :
  walk temp cur (c :: c' :: rest)
  = if (c =? "")%string || (c =? ".")%string then walk temp cur (c' :: rest)
    else if (c =? "..")%string then walk temp (up cur) (c' :: rest)
    else if is_dir temp (c :: cur) then walk temp (c :: cur) (c' :: rest)
    else Raise (Exn "FileNotFoundError" "No such file or directory").
Proof. reflexivity. Qed.

Lemma walk_file_loc comps : forall cur t,
  dir_loc cur -> Forall (fun x => contains "/" x = false) comps ->
  walk true cur comps = Ok t -> file_loc t.
Proof.
  induction comps as [|c comps IH]; intros cur t Hd Hc; [discriminate|].
  inversion Hc as [|? ? Hc1 Hc2]; subst.
  destruct comps as [|c' rest].
  - simpl.
    destruct (c =? "")%string eqn:E1; [discriminate|].
    destruct (c =? ".")%string eqn:E2; [discriminate|].
    destruct (c =? "..")%string eqn:E3; [discriminate|].
    destruct (is_dir true (c :: cur)) eqn:E4; [discriminate|].
    cbn [orb]. intros [= <-]. exists c, cur.
    apply String.eqb_neq in E1, E2, E3. auto 10.
  - rewrite walk_cons.
    destruct ((c =? "")%string || (c =? ".")%string); [apply IH; assumption|].
    destruct (c =? "..")%string; [apply IH; [apply up_dir_loc|]; assumption|].
    destruct (is_dir true (c :: cur)) eqn:E; [|discriminate].
    apply IH; [apply is_dir_dir_loc, E|assumption].
Qed.

Lemma resolve_file_loc path t : resolve true path = Ok t -> file_loc t.
Proof.
  apply walk_file_loc; [left; exists 0; reflexivity|apply split_components].
Qed.

Lemma walk_last cur c :
  c <> "" -> c <> "." -> c <> ".." -> is_dir true (c :: cur) = false ->
  walk true cur [c] = Ok (c :: cur).
Proof.
  intros H1 H2 H3 H4. apply String.eqb_neq in H1, H2, H3.
  simpl. rewrite H1, H2, H3, H4. reflexivity.
Qed.

Lemma walk_ups c n : forall m,
  c <> "" -> c <> "." -> c <> ".." ->
  is_dir true (c :: repeat ".." (n + m)) = false ->
  walk true (repeat ".." m) (repeat ".." n ++ [c]) = Ok (c :: repeat ".." (n + m)).
Proof.
  induction n as [|n IH]; intros m H1 H2 H3 H4.
  - apply walk_last; assumption.
  - change (repeat ".." (S n) ++ [c]) with (".." :: (repeat ".." n ++ [c])).
    assert (exists c' rest, repeat ".." n ++ [c] = c' :: rest)
      as (c' & rest & E) by (destruct (repeat ".." n); simpl; eauto).
    rewrite E, walk_cons. change (".." =? "")%string with false.
    change (".." =? ".")%string with false. change (".." =? "..")%string with true.
    cbn [orb]. rewrite <- E.
    replace (up (repeat ".." m)) with (repeat ".." (S m)) by (destruct m; reflexivity).
    replace (S n + m) with (n + S m) in * by lia.
    apply IH; assumption.
Qed.

Lemma rev_repeat {A} (x : A) n : rev (repeat x n) = repeat x n.
Proof.
  induction n as [|n IH]; [reflexivity|].
  simpl. rewrite IH. clear IH.
  induction n as [|n IH]; [reflexivity|]. simpl. rewrite IH. reflexivity.
Qed.

(** The path that spells a file resolves to it. *)
Lemma resolve_path_string t :
  file_loc t -> resolve true (path_string t) = Ok t.
Proof.
  intros (c & d & -> & Hd & Hs & H1 & H2 & H3 & H4).
  unfold resolve, path_string.
  rewrite split_join.
  - destruct Hd as [[n ->]| ->].
    + simpl rev. rewrite rev_repeat.
      rewrite <- (Nat.add_0_r n) at 2.
      apply (walk_ups c n 0); try assumption.
      rewrite Nat.add_0_r. exact H4.
    + simpl rev. simpl app. rewrite walk_cons.
      change ("temp" =? "")%string with false.
      change ("temp" =? ".")%string with false.
      change ("temp" =? "..")%string with false.
      change (is_dir true ["temp"]) with true. cbn [orb].
      apply walk_last; assumption.
  - simpl. destruct (rev d); discriminate.
  - apply Forall_rev. constructor; [exact Hs|].
    destruct Hd as [[n ->]| ->].
    + apply Forall_forall. intros x Hx%list_elem_of_In. apply repeat_spec in Hx. subst x.
      reflexivity.
    + repeat constructor.
Qed.

Lemma resolve_idem path t :
  resolve true path = Ok t -> resolve true (path_string t) = Ok t.
Proof. intros H. apply resolve_path_string, (resolve_file_loc path), H. Qed.

(** ** Uploads *)

Lemma in_temp_prefix name : in_temp (temp_prefix +:+ name) = true.
Proof. unfold in_temp, temp_prefix. simpl. destruct name; reflexivity. Qed.

Lemma handle_upload_unfold L name data :
  handle_upload L name data =
  try_except
    (ex <- os_path_exists_temp ;;
     (if negb ex then os_makedirs_temp else ret tt) ;;;
     open_write (temp_prefix +:+ name) data ;;;
     read_and_display L (temp_prefix +:+ name))%py
    (fun e => ui_notify ("Error: " +:+ exn_msg e)).
Proof. reflexivity. Qed.

Lemma plain_name_cases name :
  plain_name name = true ->
  name <> "" /\ contains "/" name = false /\ name <> "." /\ name <> "..".
Proof.
  unfold plain_name. intros H.
  apply andb_true_iff in H as [H H3]. apply andb_true_iff in H as [H H2].
  apply andb_true_iff in H as [H0 H1].
  apply negb_true_iff in H1, H2, H3.
  apply String.eqb_neq in H2, H3.
  repeat split; try assumption.
  intros ->. discriminate.
Qed.

Lemma resolve_plain name :
  plain_name name = true ->
  resolve true (temp_prefix +:+ name) = Ok [name; "temp"].
Proof.
  intros H. apply plain_name_cases in H as (H0 & H1 & H2 & H3).
  unfold resolve, temp_prefix.
  change ("temp/" +:+ name) with ("temp" +:+ String "/" name).
  rewrite split_append by reflexivity.
  rewrite (split_no_separator "/" name) by assumption.
  rewrite (split_no_separator "/" "temp") by reflexivity.
  apply String.eqb_neq in H0, H2, H3.
  cbn [app walk]. rewrite H0, H2, H3.
  change ("temp" =? "")%string with false.
  change ("temp" =? ".")%string with false.
  change ("temp" =? "..")%string with false.
  change (is_dir true ["temp"]) with true. cbn [orb].
  unfold is_dir. cbn [forallb].
  rewrite (String.eqb_sym ".." name), H3.
  rewrite bool_decide_eq_false_2 by discriminate.
  reflexivity.
Qed.

Lemma path_string_plain name : path_string [name; "temp"] = temp_prefix +:+ name.
Proof. reflexivity. Qed.

Lemma lookup_write_through target path f m k :
  write_through target path f m !! k
  = if bool_decide (k = path) || bool_decide (k = path_string target)
       || (in_temp k && resolves_to true k target && bool_decide (is_Some (m !! k)))
    then Some f else m !! k.
Proof.
  unfold write_through.
  destruct (decide (k = path)) as [->|Hp].
  { rewrite lookup_insert_eq, bool_decide_eq_true_2 by reflexivity. reflexivity. }
  rewrite lookup_insert_ne by congruence.
  rewrite (bool_decide_eq_false_2 (k = path)) by assumption.
  destruct (decide (k = path_string target)) as [->|Ht].
  { rewrite lookup_insert_eq, bool_decide_eq_true_2 by reflexivity. reflexivity. }
  rewrite lookup_insert_ne by congruence.
  rewrite (bool_decide_eq_false_2 (k = path_string target)) by assumption.
  rewrite map_lookup_imap. cbn [orb].
  destruct (m !! k) as [old|] eqn:E.
  - rewrite bool_decide_eq_true_2 by eauto. rewrite andb_true_r. cbn.
    destruct (in_temp k && resolves_to true k target); reflexivity.
  - rewrite andb_false_r. reflexivity.
Qed.


Lemma stored_files_lookup name data m t :
  resolve true (temp_prefix +:+ name) = Ok t ->
  stored_files name data m !! (temp_prefix +:+ name) = Some (uploaded data).
Proof.
  intros H. unfold stored_files. rewrite H, lookup_write_through.
  rewrite bool_decide_eq_true_2 by reflexivity. reflexivity.
Qed.

Lemma stored_lookup name data w :
  plain_name name = true ->
  files (stored name data w) !! (temp_prefix +:+ name) = Some (uploaded data).
Proof.
  intros H. apply (stored_files_lookup name data _ _ (resolve_plain name H)).
Qed.

Lemma stored_files_other name data m t k :
  resolve true (temp_prefix +:+ name) = Ok t ->
  in_temp k = false -> k <> path_string t ->
  stored_files name data m !! k = m !! k.
Proof.
  intros H Hk Ht. unfold stored_files. rewrite H, lookup_write_through.
  rewrite Hk, (bool_decide_eq_false_2 (k = path_string t)) by assumption.
  rewrite bool_decide_eq_false_2; [reflexivity|].
  intros ->. rewrite in_temp_prefix in Hk. discriminate.
Qed.

Lemma stored_files_outside name data m k :
  plain_name name = true -> in_temp k = false ->
  stored_files name data m !! k = m !! k.
Proof.
  intros H Hk.
  apply (stored_files_other name data m _ k (resolve_plain name H) Hk).
  rewrite path_string_plain. intros ->. rewrite in_temp_prefix in Hk.
  discriminate.
Qed.

Lemma stored_files_keeps name data m k :
  is_Some (m !! k) -> is_Some (stored_files name data m !! k).
Proof.
  intros H. unfold stored_files.
  destruct (resolve true (temp_prefix +:+ name)) as [t|e]; [|exact H].
  rewrite lookup_write_through.
  match goal with |- context [if ?b then _ else _] => destruct b end; eauto.
Qed.

(** A write through one path leaves every path to another file alone. *)
Lemma stored_files_apart name data m t k tk :
  resolve true (temp_prefix +:+ name) = Ok t ->
  resolve true k = Ok tk -> tk <> t ->
  stored_files name data m !! k = m !! k.
Proof.
  intros Hr Hk Hne. unfold stored_files. rewrite Hr, lookup_write_through.
  unfold resolves_to. rewrite Hk.
  rewrite (bool_decide_eq_false_2 (tk = t)) by exact Hne.
  rewrite andb_false_r. cbn [andb orb].
  rewrite !bool_decide_eq_false_2; [reflexivity| |].
  - intros ->. rewrite (resolve_idem _ _ Hr) in Hk. congruence.
  - intros ->. congruence.
Qed.

Lemma upload_run L name data w :
  step L w (Upload name data) =
    match resolve true (temp_prefix +:+ name) with
    | Ok _ =>
        match read_and_display L (temp_prefix +:+ name) (stored name data w) with
        | (Ok _, w2) => w2
        | (Raise e, w2) => with_notes (notes w2 ++ ["Error: " +:+ exn_msg e]) w2
        end
    | Raise e =>
        with_notes (notes w ++ ["Error: " +:+ exn_msg e]) (with_temp true w)
    end.
Proof.
  unfold step, handler. rewrite handle_upload_unfold.
  unfold try_except, bind, os_path_exists_temp, os_makedirs_temp, ret,
    open_write.
  assert (E : forall w0 t, resolve true (temp_prefix +:+ name) = Ok t ->
             temp_exists w0 = true -> files w0 = files w ->
             page w0 = page w -> notes w0 = notes w -> trace w0 = trace w ->
             running w0 = running w -> parents w0 = parents w ->
             with_files (write_through t (temp_prefix +:+ name)
                           (uploaded data) (files w0)) w0
             = stored name data w).
  { intros w0 t Hr H1 H2 H3 H4 H5 H6 H7. unfold with_files, stored, stored_files.
    rewrite Hr, H1, H2, H3, H4, H5, H6, H7. reflexivity. }
  assert (N : temp_exists w = true -> with_temp true w = w).
  { destruct w; cbn. intros ->. reflexivity. }
  fold (uploaded data).
  destruct (temp_exists w) eqn:Ht; cbn [negb];
    cbn [with_temp temp_exists]; rewrite ?Ht.
  - destruct (resolve true (temp_prefix +:+ name)) as [t|e] eqn:Hr.
    + rewrite (E w t) by auto.
      destruct (read_and_display L (temp_prefix +:+ name) (stored name data w))
        as [[[]|e] w2]; reflexivity.
    + rewrite N by reflexivity. reflexivity.
  - fold (with_temp true w).
    destruct (resolve true (temp_prefix +:+ name)) as [t|e] eqn:Hr.
    + rewrite (E (with_temp true w) t) by auto.
      destruct (read_and_display L (temp_prefix +:+ name) (stored name data w))
        as [[[]|e] w2]; reflexivity.
    + reflexivity.
Qed.

Lemma upload_plain_run L name data w :
  plain_name name = true ->
  step L w (Upload name data) =
    match read_and_display L (temp_prefix +:+ name) (stored name data w) with
    | (Ok _, w2) => w2
    | (Raise e, w2) => with_notes (notes w2 ++ ["Error: " +:+ exn_msg e]) w2
    end.
Proof.
  intros Hplain. rewrite upload_run, (resolve_plain name Hplain). reflexivity.
Qed.

(** The world after an upload whose path can be opened: the file is on disk,
    and what is added to the page, the notifications and the trace depends on
    the upload alone. *)
Lemma upload_resolved L name data t :
  resolve true (temp_prefix +:+ name) = Ok t ->
  exists dp dn dt, forall w,
    step L w (Upload name data) =
      {| files := stored_files name data (files w);
         temp_exists := true; page := page w ++ dp; notes := notes w ++ dn;
         trace := trace w ++ dt; running := running w;
         parents := parents w |}.
Proof.
  intros Hr.
  destruct (reads_only_read_and_display (temp_prefix +:+ name) L
              (Some (uploaded data))) as (r & dp & dt & H).
  exists dp, (match r with Ok _ => [] | Raise e => ["Error: " +:+ exn_msg e] end), dt.
  intros w. rewrite (upload_run L name data w), Hr.
  rewrite (H (stored name data w))
    by apply (stored_files_lookup name data _ t Hr).
  destruct r as [[]|e]; unfold extend, with_notes, stored;
    cbn [files temp_exists page notes trace running parents];
    rewrite ?app_nil_r; reflexivity.
Qed.

(** An upload whose path cannot be opened never reaches the disk. *)
Lemma upload_unresolved L name data w e :
  resolve true (temp_prefix +:+ name) = Raise e ->
  step L w (Upload name data) =
    {| files := files w; temp_exists := true; page := page w;
       notes := notes w ++ ["Error: " +:+ exn_msg e];
       trace := trace w; running := running w; parents := parents w |}.
Proof.
  intros Hr. rewrite upload_run, Hr. reflexivity.
Qed.


(** ** Extension dispatch *)

Lemma excel_ext_cases ext :
  is_excel_ext ext = true ->
  ext = "xls" \/ ext = "xlsx" \/ ext = "xlsm" \/ ext = "xltx" \/ ext = "xltm".
Proof.
  unfold is_excel_ext. intros H.
  repeat (apply orb_true_iff in H as [H|H]); apply String.eqb_eq in H; auto 6.
Qed.

Lemma supported_arms ext :
  is_supported ext
  = is_csv_ext ext || is_excel_ext ext || (ext =? "sas7bdat")%string
    || (ext =? "xpt")%string.
Proof.
  unfold is_supported, is_csv_ext, is_excel_ext. simpl.
  rewrite orb_false_r, !orb_assoc. reflexivity.
Qed.

Lemma read_file_unsupported L fp sn w :
  is_supported (ext_of fp) = false ->
  read_file L fp sn w = (Raise unsupported, w).
Proof.
  intros H. apply unsupported_arms in H as (H1 & H2 & H3 & H4).
  unfold read_file. rewrite H1, H2, H3, H4. reflexivity.
Qed.

Lemma read_file_csv_arm L fp sn :
  is_csv_ext (ext_of fp) = true -> read_file L fp sn = read_file_csv L fp.
Proof. intros H. unfold read_file. rewrite H. reflexivity. Qed.

Lemma read_file_excel_arm L fp sn :
  is_excel_ext (ext_of fp) = true -> read_file L fp sn = read_file_excel L fp sn.
Proof.
  intros H. unfold read_file. rewrite H.
  apply excel_ext_cases in H as [H|[H|[H|[H|H]]]]; rewrite H; reflexivity.
Qed.

(** C4: the extension is the lower-cased text after the last ['.']; with an
    extension outside the nine supported ones [read_file] raises the
    unsupported-format error (a [ValueError] in the code) and changes nothing:
    no library call is made, so no loader is reached; the upload of such a
    file adds nothing to the page, makes no library call and ends in one
    error notification. *)
Theorem unsupported_extension_rejected (L : Libs) (filepath : string)
  (sheet_name : option string) (w : World) :
  is_supported (ext_of filepath) = false ->
  read_file L filepath sheet_name w = (Raise unsupported, w)
  /\ (forall pre suf, contains "." suf = false ->
        ext_of (pre +:+ "." +:+ suf) = lower suf)
  /\ (forall name data, filepath = temp_prefix +:+ name ->
        let w' := step L w (Upload name data) in
        page w' = page w /\ trace w' = trace w
        /\ (exists msg, notes w' = notes w ++ [msg])
        /\ (plain_name name = true ->
            notes w' = notes w ++ ["Error: Unsupported file format"])).
Proof.
  intros Hext. split; [apply read_file_unsupported, Hext|].
  split; [intros pre suf; apply ext_of_suffix|].
  intros name data -> w'. subst w'.
  rewrite upload_run.
  destruct (resolve true (temp_prefix +:+ name)) as [t|e] eqn:Hr.
  - unfold read_and_display, bind.
    rewrite (read_file_unsupported L _ None _ Hext).
    cbn. repeat split; eauto.
  - cbn. repeat split; eauto.
    intros Hplain. rewrite (resolve_plain name Hplain) in Hr. discriminate.
Qed.

Lemma unsupported_extension_rejected_witness :
  read_file (Ref.libs []) "temp/data.json" None initial
  = (Raise unsupported, initial)
  /\ ext_of "temp/data.JSON" = "json"
  /\ notes (step (Ref.libs []) initial (Upload "data.json" "{}"))
     = ["Error: Unsupported file format"]
  /\ page (step (Ref.libs []) initial (Upload "data.json" "{}")) = [].
Proof.
  destruct (unsupported_extension_rejected (Ref.libs []) "temp/data.json" None
              initial eq_refl) as (H1 & H2 & H3).
  split; [exact H1|].
  split; [exact (H2 "temp/data" "JSON" eq_refl)|].
  destruct (H3 "data.json" "{}" eq_refl) as (Hp & _ & _ & Hn).
  split; [exact (Hn eq_refl) | exact Hp].
Defined.

(** C10: a path without ['.'] has its whole lower-cased text as extension;
    when that text is a supported format name [read_file] runs that format's
    arm (a file named exactly [csv] is read as CSV), and it raises the
    unsupported-format error exactly when the text is none of the names. *)
Theorem dotless_path_dispatch (L : Libs) (filepath : string)
  (sheet_name : option string) :
  contains "." filepath = false ->
  ext_of filepath = lower filepath
  /\ (is_csv_ext (lower filepath) = true ->
      read_file L filepath sheet_name = read_file_csv L filepath)
  /\ (is_excel_ext (lower filepath) = true ->
      read_file L filepath sheet_name = read_file_excel L filepath sheet_name)
  /\ (lower filepath = "sas7bdat" ->
      read_file L filepath sheet_name = read_file_sas7bdat L filepath)
  /\ (lower filepath = "xpt" ->
      read_file L filepath sheet_name = read_file_xpt L filepath)
  /\ (is_supported (lower filepath) = false ->
      forall w, read_file L filepath sheet_name w = (Raise unsupported, w))
  /\ is_supported (lower filepath)
     = is_csv_ext (lower filepath) || is_excel_ext (lower filepath)
       || (lower filepath =? "sas7bdat")%string
       || (lower filepath =? "xpt")%string.
Proof.
  intros Hdot. pose proof (ext_of_dotless filepath Hdot) as E.
  split; [exact E|]. rewrite <- E.
  split; [apply read_file_csv_arm|].
  split; [apply read_file_excel_arm|].
  split; [intros H; unfold read_file; rewrite H; reflexivity|].
  split; [intros H; unfold read_file; rewrite H; reflexivity|].
  split; [intros H w; apply read_file_unsupported, H|].
  apply supported_arms.
Qed.

Lemma dotless_path_dispatch_witness :
  ext_of "CSV" = "csv"
  /\ read_file (Ref.libs []) "CSV" None = read_file_csv (Ref.libs []) "CSV"
  /\ read_file (Ref.libs []) "README" None initial = (Raise unsupported, initial).
Proof.
  destruct (dotless_path_dispatch (Ref.libs []) "CSV" None eq_refl)
    as (H1 & H2 & _).
  destruct (dotless_path_dispatch (Ref.libs []) "README" None eq_refl)
    as (_ & _ & _ & _ & _ & H6 & _).
  split; [exact H1|]. split; [exact (H2 eq_refl) | exact (H6 eq_refl initial)].
Defined.

(** ** Delimiter detection *)

Ltac py_unfold :=
  unfold read_file_csv, read_file_excel, read_file_sas7bdat, read_file_xpt,
    detect_csv_delimiter, file_read, csv_has_header, csv_sniff, pd_read_csv,
    pd_ExcelFile, pd_read_excel, pyreadstat_read_sas7bdat,
    pyreadstat_read_xport, try_except, bind, ret, raise, lift, log, open_read,
    add_element in *.

(** C9: [detect_csv_delimiter] returns on every path and in every world,
    never raising: its result is [None], the comma, or a delimiter the
    sniffer produced; a missing file, an unreadable file and a file that
    cannot be read as text all give [None]; nothing but the trace changes. *)
Theorem detect_csv_delimiter_never_raises (L : Libs) (filepath : string)
  (w : World) :
  exists out w',
    detect_csv_delimiter L filepath w = (Ok out, w')
    /\ (out = None \/ out = Some ","
        \/ exists s d, sniff L s = Ok d /\ out = Some (delimiter d))
    /\ (files w !! filepath = None -> out = None)
    /\ (forall f, files w !! filepath = Some f -> readable f = false ->
        out = None)
    /\ (forall f e, files w !! filepath = Some f ->
        read_chars L (content f) 2048 = Raise e -> out = None)
    /\ files w' = files w /\ page w' = page w /\ notes w' = notes w.
Proof.
  py_unfold. cbn.
  destruct (files w !! filepath) as [f|] eqn:Hf.
  2:{ eexists _, _. split; [reflexivity|]. repeat split; auto; discriminate. }
  destruct (readable f) eqn:Hr.
  2:{ eexists _, _. split; [reflexivity|]. repeat split; auto; discriminate. }
  destruct (read_chars L (content f) 2048) as [s|e] eqn:Hs.
  2:{ eexists _, _. split; [reflexivity|]. repeat split; auto; discriminate. }
  assert (Hcases : forall out : option string,
    (forall f0, Some f = Some f0 -> readable f0 = false -> out = None)
    /\ (forall f0 e, Some f = Some f0 ->
        read_chars L (content f0) 2048 = Raise e -> out = None)).
  { intros out. split.
    - intros f0 [= <-] H. congruence.
    - intros f0 e [= <-] H. congruence. }
  destruct (has_header L s) as [[|]|e] eqn:Hh; cbn.
  - destruct (sniff L s) as [d|e] eqn:Hd; cbn;
      (eexists _, _; split; [reflexivity|]);
      (split; [eauto 6|]); (split; [discriminate|]);
      (split; [apply Hcases|]); (split; [apply Hcases|]); auto.
  - eexists _, _. split; [reflexivity|]. split; [auto|].
    split; [discriminate|]. split; [apply Hcases|]. split; [apply Hcases|]. auto.
  - eexists _, _. split; [reflexivity|]. split; [auto|].
    split; [discriminate|]. split; [apply Hcases|]. split; [apply Hcases|]. auto.
Qed.

Lemma detect_csv_delimiter_never_raises_witness :
  fst (detect_csv_delimiter (Ref.libs []) "missing.csv" initial) = Ok None.
Proof.
  destruct (detect_csv_delimiter_never_raises (Ref.libs []) "missing.csv" initial)
    as (out & w' & E & _ & Hmissing & _).
  rewrite E. simpl. f_equal. apply Hmissing. reflexivity.
Defined.

(** What the CSV arm of [read_file] does on a readable file, by the verdicts
    of the sniffer on the sample. *)
Lemma read_file_csv_run L fp w f :
  files w !! fp = Some f -> readable f = true ->
  read_file_csv L fp w =
  let loads d t :=
    (match read_csv L (content f) d HeaderInfer with
     | Ok df => Ok (Some (PyDataFrame df))
     | Raise e => Raise e
     end, extend w [] (COpen fp :: t ++ [CReadCsv fp d HeaderInfer])) in
  let prompts t := (Ok None, extend w [DelimiterPrompt fp] (COpen fp :: t)) in
  match read_chars L (content f) 2048 with
  | Raise _ => prompts []
  | Ok s =>
      match has_header L s with
      | Raise _ => prompts [CHasHeader s]
      | Ok false => loads "," [CHasHeader s]
      | Ok true =>
          match sniff L s with
          | Raise _ => prompts [CHasHeader s; CSniff s]
          | Ok d =>
              if truthy_str (delimiter d)
              then loads (delimiter d) [CHasHeader s; CSniff s]
              else prompts [CHasHeader s; CSniff s]
          end
      end
  end.
Proof.
  intros Hf Hr. py_unfold. cbn. rewrite Hf, Hr.
  unfold extend, with_page, with_trace. cbn.
  destruct (read_chars L (content f) 2048) as [s|e]; cbn.
  2:{ rewrite <- ?app_assoc. reflexivity. }
  destruct (has_header L s) as [[|]|e]; cbn.
  - destruct (sniff L s) as [d|e]; cbn.
    + destruct (truthy_str (delimiter d)); cbn; rewrite ?Hf, ?Hr, ?app_nil_r;
        [destruct (read_csv L (content f) (delimiter d) HeaderInfer)|];
        cbn; rewrite <- ?app_assoc; reflexivity.
    + rewrite <- ?app_assoc. reflexivity.
  - rewrite Hf, Hr, app_nil_r.
    destruct (read_csv L (content f) "," HeaderInfer); cbn;
      rewrite <- ?app_assoc; reflexivity.
  - rewrite <- ?app_assoc. reflexivity.
Qed.

(** C2 (amended): for a CSV/TXT file the sample is what reading 2048
    characters of the file as text gives, and resolution has one of three
    outcomes: the sniffer finds a header and its delimiter is the one the file
    is parsed with; the sniffer finds no header and the file is parsed with a
    comma; reading or sniffing raises and [read_file] returns [None] with a
    delimiter prompt on the page, no notification and no exception. *)
Theorem csv_delimiter_resolution (L : Libs) (filepath : string)
  (sheet_name : option string) (w : World) (f : file) :
  is_csv_ext (ext_of filepath) = true ->
  files w !! filepath = Some f ->
  readable f = true ->
  let sample := read_chars L (content f) 2048 in
  let r := read_file L filepath sheet_name w in
  let loads_with d :=
    fst r = match read_csv L (content f) d HeaderInfer with
            | Ok df => Ok (Some (PyDataFrame df))
            | Raise e => Raise e
            end
    /\ page (snd r) = page w /\ notes (snd r) = notes w in
  let prompts :=
    fst r = Ok None /\ page (snd r) = page w ++ [DelimiterPrompt filepath]
    /\ notes (snd r) = notes w in
  (forall s d, sample = Ok s -> has_header L s = Ok true -> sniff L s = Ok d ->
     delimiter d <> "" -> loads_with (delimiter d))
  /\ (forall s, sample = Ok s -> has_header L s = Ok false -> loads_with ",")
  /\ ((exists e, sample = Raise e)
      \/ (exists s e, sample = Ok s
            /\ (has_header L s = Raise e
                \/ (has_header L s = Ok true /\ sniff L s = Raise e))) ->
      prompts).
Proof.
  intros Hext Hf Hr. cbv zeta.
  rewrite (read_file_csv_arm L filepath sheet_name Hext).
  rewrite (read_file_csv_run L filepath w f Hf Hr). cbv zeta.
  split; [|split].
  - intros s d -> -> -> Hd.
    assert (truthy_str (delimiter d) = true) as ->.
    { unfold truthy_str.
      destruct (String.eqb_spec (delimiter d) ""); [contradiction|reflexivity]. }
    cbn. rewrite app_nil_r. auto.
  - intros s -> ->. cbn. rewrite app_nil_r. auto.
  - intros [[e ->]|(s & e & -> & [->|[-> ->]])]; cbn; auto.
Qed.

Lemma csv_delimiter_resolution_witness :
  fst (read_file (Ref.libs []) "p.csv" None
         (Examples.on_disk "p.csv" Examples.people_semicolon_csv))
  = Ok (Some (PyDataFrame
                {| columns := ["name"; "age"];
                   rows := [[SText "ann"; SInt 31]; [SText "bob"; SInt 27]] |}))
  /\ fst (read_file (Ref.libs []) "n.csv" None
            (Examples.on_disk "n.csv" Examples.numbers_csv))
     = Ok (Some (PyDataFrame
                   {| columns := ["1"; "2"];
                      rows := [[SInt 3; SInt 4]; [SInt 5; SInt 6]] |}))
  /\ page (snd (read_file (Ref.libs []) "e.csv" None
                  (Examples.on_disk "e.csv" "")))
     = [DelimiterPrompt "e.csv"].
Proof.
  split; [|split].
  - destruct (csv_delimiter_resolution (Ref.libs []) "p.csv" None
                (Examples.on_disk "p.csv" Examples.people_semicolon_csv)
                (uploaded Examples.people_semicolon_csv)
                eq_refl eq_refl eq_refl) as (H & _ & _).
    destruct (H (Ref.octets Examples.people_semicolon_csv)
                {| delimiter := ";" |} eq_refl eq_refl eq_refl)
      as (E & _); [discriminate|].
    exact E.
  - destruct (csv_delimiter_resolution (Ref.libs []) "n.csv" None
                (Examples.on_disk "n.csv" Examples.numbers_csv)
                (uploaded Examples.numbers_csv)
                eq_refl eq_refl eq_refl) as (_ & H & _).
    destruct (H (Ref.octets Examples.numbers_csv) eq_refl eq_refl) as (E & _).
    exact E.
  - destruct (csv_delimiter_resolution (Ref.libs []) "e.csv" None
                (Examples.on_disk "e.csv" "") (uploaded "")
                eq_refl eq_refl eq_refl) as (_ & _ & H).
    destruct H as (_ & E & _); [|exact E].
    right. exists [], (Exn "Error" "Could not determine delimiter").
    split; [reflexivity|]. left. reflexivity.
Defined.

(** C2 (as stated) fails: two files with the same first 2048 octets are
    resolved to different delimiters, so the sample is not the first 2048
    octets of the file. *)
Lemma sample_exceeds_2048_octets :
  String.substring 0 2048 Examples.accents_comma
  = String.substring 0 2048 Examples.accents_semicolon
  /\ fst (detect_csv_delimiter (Ref.libs []) "a.csv"
            (Examples.on_disk "a.csv" Examples.accents_comma)) = Ok (Some ",")
  /\ fst (detect_csv_delimiter (Ref.libs []) "a.csv"
            (Examples.on_disk "a.csv" Examples.accents_semicolon)) = Ok (Some ";").
Proof. vm_compute. repeat split. Qed.

Lemma read_file_csv_unreadable L fp w :
  (files w !! fp = None
   \/ exists f, files w !! fp = Some f /\ readable f = false) ->
  fst (read_file_csv L fp w) = Ok None.
Proof.
  intros [H|(f & H & Hr)]; py_unfold; cbn; rewrite H; cbn; rewrite ?Hr;
    reflexivity.
Qed.

(** C3 (amended): when a CSV/TXT file resolves without a prompt, the header
    heuristic has run exactly once, before the loader, and the loader is
    called with the resolved delimiter and with the default header setting
    (the first row gives the column names) whatever the heuristic answered:
    its verdict only selects the delimiter and is not passed on. *)
Theorem csv_loader_header_row (L : Libs) (filepath : string)
  (sheet_name : option string) (w : World) :
  is_csv_ext (ext_of filepath) = true ->
  fst (read_file L filepath sheet_name w) <> Ok None ->
  exists f s h d,
    files w !! filepath = Some f
    /\ read_chars L (content f) 2048 = Ok s
    /\ has_header L s = Ok h
    /\ (if h : bool then exists dl, sniff L s = Ok dl /\ d = delimiter dl
        else d = ",")
    /\ trace (snd (read_file L filepath sheet_name w))
       = trace w ++ [COpen filepath; CHasHeader s]
           ++ (if h then [CSniff s] else [])
           ++ [CReadCsv filepath d HeaderInfer]
    /\ fst (read_file L filepath sheet_name w)
       = match read_csv L (content f) d HeaderInfer with
         | Ok df => Ok (Some (PyDataFrame df))
         | Raise e => Raise e
         end
    /\ page (snd (read_file L filepath sheet_name w)) = page w.
Proof.
  intros Hext. rewrite (read_file_csv_arm L filepath sheet_name Hext).
  destruct (files w !! filepath) as [f|] eqn:Hf.
  2:{ intros H. exfalso. apply H, read_file_csv_unreadable. auto. }
  destruct (readable f) eqn:Hr.
  2:{ intros H. exfalso. apply H, read_file_csv_unreadable. eauto. }
  rewrite (read_file_csv_run L filepath w f Hf Hr). cbv zeta.
  destruct (read_chars L (content f) 2048) as [s|e] eqn:Hs;
    [|intros []; reflexivity].
  destruct (has_header L s) as [[|]|e] eqn:Hh; [| |intros []; reflexivity].
  - destruct (sniff L s) as [d|e] eqn:Hd; [|intros []; reflexivity].
    destruct (truthy_str (delimiter d)); [|intros []; reflexivity].
    intros _. exists f, s, true, (delimiter d). cbn. rewrite app_nil_r.
    repeat split; eauto.
  - intros _. exists f, s, false, ",". cbn. rewrite app_nil_r.
    repeat split; eauto.
Qed.

Lemma csv_loader_header_row_witness :
  exists f s h d,
    files (Examples.on_disk "n.csv" Examples.numbers_csv) !! "n.csv" = Some f
    /\ has_header (Ref.libs []) s = Ok h
    /\ trace (snd (read_file (Ref.libs []) "n.csv" None
                     (Examples.on_disk "n.csv" Examples.numbers_csv)))
       = [COpen "n.csv"; CHasHeader s] ++ (if h : bool then [CSniff s] else [])
           ++ [CReadCsv "n.csv" d HeaderInfer].
Proof.
  destruct (csv_loader_header_row (Ref.libs []) "n.csv" None
              (Examples.on_disk "n.csv" Examples.numbers_csv) eq_refl)
    as (f & s & h & d & Hf & _ & Hh & _ & Ht & _).
  - vm_compute. discriminate.
  - exists f, s, h, d. auto.
Defined.

(** C3 (as stated) fails: on a file of numbers the sniffer finds no header,
    and the loader still takes the first row as the header: the frame has the
    columns [1] and [2] and two rows, and the loader was called with the
    default header setting. *)
Lemma headerless_csv_first_row_becomes_header :
  has_header (Ref.libs []) (Ref.octets Examples.numbers_csv) = Ok false
  /\ fst (read_file (Ref.libs []) "n.csv" None
            (Examples.on_disk "n.csv" Examples.numbers_csv))
     = Ok (Some (PyDataFrame
                   {| columns := ["1"; "2"];
                      rows := [[SInt 3; SInt 4]; [SInt 5; SInt 6]] |}))
  /\ trace (snd (read_file (Ref.libs []) "n.csv" None
                   (Examples.on_disk "n.csv" Examples.numbers_csv)))
     = [COpen "n.csv"; CHasHeader (Ref.octets Examples.numbers_csv);
        CReadCsv "n.csv" "," HeaderInfer].
Proof. vm_compute. repeat split. Qed.

(** ** The manual delimiter prompt *)

(** C5 (amended): each submission of a delimiter makes exactly one parse
    attempt and never touches the disk.  When the parse fails, the failure is
    notified, no preview and no new prompt are added, and the page is
    unchanged, so the prompt is still there and can be submitted again.  When
    it succeeds, the prompt is cleared and the preview card is added. *)
Theorem manual_delimiter_submission (L : Libs) (w : World) (container : nat)
  (filepath value : string) :
  page w !! container = Some (DelimiterPrompt filepath) ->
  let w' := step L w (SubmitDelimiter container value) in
  let parse := fst (pd_read_csv L filepath value w) in
  trace w' = trace w ++ [CReadCsv filepath value HeaderInfer]
  /\ files w' = files w
  /\ (forall e, parse = Raise e ->
        notes w' = notes w ++ ["Error: " +:+ exn_msg e]
        /\ page w' = page w
        /\ page w' !! container = Some (DelimiterPrompt filepath))
  /\ (forall df, parse = Ok df ->
        notes w' = notes w
        /\ page w'
           = <[container := Cleared]> (page w)
               ++ [Card ("Preview of " +:+ filepath)
                     (Some {| tcolumns := columns df;
                              trows := to_dict_records (head 10 df) |})]).
Proof.
  intros Hc. unfold step, handler. rewrite Hc. cbv zeta. in_row.
  unfold handle_manual_delimiter, try_except, bind.
  destruct (pd_read_csv L filepath value w) as [r w1] eqn:E.
  assert (Hw1 : w1 = extend w [] [CReadCsv filepath value HeaderInfer]).
  { revert E. py_unfold. cbn.
    destruct (files w !! filepath) as [f|]; [destruct (readable f)|];
      intros [= _ <-]; unfold extend, with_trace; cbn;
      rewrite app_nil_r; reflexivity. }
  subst w1. cbv zeta. cbn [fst].
  destruct r as [df|e].
  - unfold set_element.
    destruct (display_table_run filepath (PyDataFrame df)
                (with_page (<[container:=Cleared]>
                   (page (extend w [] [CReadCsv filepath value HeaderInfer])))
                   (extend w [] [CReadCsv filepath value HeaderInfer])))
      as (r & c & Ed & -> & ->).
    rewrite Ed. cbn. rewrite !app_nil_r.
    repeat split; try discriminate;
      match goal with H : Ok _ = Ok _ |- _ => injection H as <- end;
      reflexivity.
  - cbn. rewrite app_nil_r.
    repeat split; try discriminate;
      match goal with H : Raise _ = Raise _ |- _ => injection H as <- end;
      auto.
Qed.

Lemma manual_delimiter_submission_witness :
  notes (step (Ref.libs [])
           (step (Ref.libs []) initial (Upload "e.csv" ""))
           (SubmitDelimiter 0 ";"))
  = ["Error: No columns to parse from file"].
Proof.
  destruct (manual_delimiter_submission (Ref.libs [])
              (step (Ref.libs []) initial (Upload "e.csv" "")) 0
              "temp/e.csv" ";" eq_refl) as (_ & _ & H & _).
  destruct (H (Exn "EmptyDataError" "No columns to parse from file") eq_refl)
    as (E & _).
  exact E.
Defined.

(** C5 (as stated) fails: after a failed submission the prompt is still on
    the page, and a second submission is parsed again. *)
Lemma prompt_survives_failed_submission :
  let L := Ref.libs [] in
  let w0 := step L initial (Upload "e.csv" "") in
  let w1 := step L w0 (SubmitDelimiter 0 ";") in
  let w2 := step L w1 (SubmitDelimiter 0 ",") in
  page w0 = [DelimiterPrompt "temp/e.csv"]
  /\ notes w1 = ["Error: No columns to parse from file"]
  /\ page w1 = [DelimiterPrompt "temp/e.csv"]
  /\ trace w2 = trace w0 ++ [CReadCsv "temp/e.csv" ";" HeaderInfer;
                             CReadCsv "temp/e.csv" "," HeaderInfer].
Proof. vm_compute. repeat split. Qed.

(** ** Previews *)

(** X14: the upload of a CSV file whose delimiter is resolved without a
    prompt (no header found, so the comma; or a header found and a non-empty
    delimiter inferred) adds exactly one preview card, which shows the frame
    that the reader returned for that delimiter: its column names in order
    and its first ten rows, all of them when there are fewer; nothing is
    notified. *)
Theorem sniffed_csv_upload_preview (L : Libs) (w : World) (name : string)
  (data : bytes) (loaded : DataFrame) (s : text) (value : string) :
  plain_name name = true ->
  is_csv_ext (ext_of (temp_prefix +:+ name)) = true ->
  read_chars L data 2048 = Ok s ->
  ((has_header L s = Ok false /\ value = ",")
   \/ (has_header L s = Ok true
       /\ exists d, sniff L s = Ok d /\ delimiter d = value /\ value <> "")) ->
  read_csv L data value HeaderInfer = Ok loaded ->
  let w' := step L w (Upload name data) in
  let t := {| tcolumns := columns loaded;
              trows := to_dict_records (head 10 loaded) |} in
  page w' = page w ++ [Card ("Preview of " +:+ temp_prefix +:+ name) (Some t)]
  /\ length (trows t) = Nat.min 10 (length (rows loaded))
  /\ notes w' = notes w.
Proof.
  intros Hplain Hext Hs Hsniff Hcsv. cbv zeta.
  rewrite (upload_plain_run L name data w Hplain).
  unfold read_and_display, bind.
  rewrite (read_file_csv_arm L _ None Hext).
  rewrite (read_file_csv_run L _ (stored name data w) (uploaded data))
    by (try apply stored_lookup, Hplain; reflexivity).
  cbv zeta. cbn [content uploaded]. rewrite Hs.
  assert (Hlen : length (to_dict_records (head 10 loaded))
                 = Nat.min 10 (length (rows loaded))).
  { unfold to_dict_records, head. cbn [rows]. rewrite length_map, length_take.
    reflexivity. }
  destruct Hsniff as [(-> & ->)|(-> & d & -> & Hd & Hne)].
  - rewrite Hcsv.
    destruct (display_table_run (temp_prefix +:+ name) (PyDataFrame loaded)
                (extend (stored name data w) []
                   (COpen (temp_prefix +:+ name)
                    :: [CHasHeader s]
                       ++ [CReadCsv (temp_prefix +:+ name) "," HeaderInfer])))
      as (r & c & Ed & -> & ->).
    rewrite Ed. cbn [fst snd page notes extend stored].
    rewrite app_nil_r. auto.
  - rewrite Hd.
    assert (Ht : truthy_str value = true).
    { unfold truthy_str. apply negb_true_iff, String.eqb_neq, Hne. }
    rewrite Ht, Hcsv.
    destruct (display_table_run (temp_prefix +:+ name) (PyDataFrame loaded)
                (extend (stored name data w) []
                   (COpen (temp_prefix +:+ name)
                    :: [CHasHeader s; CSniff s]
                       ++ [CReadCsv (temp_prefix +:+ name) value HeaderInfer])))
      as (r & c & Ed & -> & ->).
    rewrite Ed. cbn [fst snd page notes extend stored].
    rewrite app_nil_r. auto.
Qed.

Lemma sniffed_csv_upload_preview_witness :
  exists t,
    page (step (Ref.libs []) initial
            (Upload "two.csv" (Ref.to_csv Examples.two_columns)))
    = [Card "Preview of temp/two.csv" (Some t)]
    /\ tcolumns t = ["a"; "b"]
    /\ length (trows t) = 10.
Proof.
  destruct (sniffed_csv_upload_preview (Ref.libs []) initial "two.csv"
              (Ref.to_csv Examples.two_columns) Examples.two_columns
              (Ref.octets (Ref.to_csv Examples.two_columns)) ",")
    as (Hp & Hr & _).
  - reflexivity.
  - reflexivity.
  - vm_compute. reflexivity.
  - right. split; [vm_compute; reflexivity|].
    exists {| delimiter := "," |}.
    split; [vm_compute; reflexivity|]. split; [reflexivity|discriminate].
  - vm_compute. reflexivity.
  - eexists. split; [exact Hp|]. split; [reflexivity|exact Hr].
Defined.

(** A dataset written as comma-separated text need not come back as a
    preview: the text of a dataset with one column and ten rows has no
    delimiter for the sniffer to find; its upload leaves a delimiter prompt
    and no preview. *)
Example single_column_round_trip_prompts :
  length (rows Examples.one_column) = 10
  /\ Ref.ref_read_csv (Ref.to_csv Examples.one_column) "," HeaderInfer
     = Ok Examples.one_column
  /\ page (step (Ref.libs []) initial
             (Upload "one.csv" (Ref.to_csv Examples.one_column)))
     = [DelimiterPrompt "temp/one.csv"].
Proof. vm_compute. repeat split. Qed.

(** ** Two uploads *)

Lemma reads_only_result fp {A} (m : M A) w1 w2 :
  reads_only fp m -> files w1 !! fp = files w2 !! fp ->
  fst (m w1) = fst (m w2).
Proof.
  intros Hm Hw. destruct (Hm (files w2 !! fp)) as (r & dp & dt & H).
  rewrite (H w1 Hw), (H w2 eq_refl). reflexivity.
Qed.

(** C7 (amended): two uploads whose temp paths can be opened and denote
    different files are independent.  Each has its own temp file, which holds
    its own data whichever order they arrive in; what each adds to the page
    and to the notifications is the same whether or not the other came first,
    and is left untouched by the other; and whatever is later read from one
    upload's path (by the loader, on a sheet or delimiter submission) is the
    same as if the other upload had not happened. *)
Theorem uploads_of_different_files_independent (L : Libs) (w : World)
  (name_a name_b : string) (data_a data_b : bytes) (file_a file_b : location) :
  resolve true (temp_prefix +:+ name_a) = Ok file_a ->
  resolve true (temp_prefix +:+ name_b) = Ok file_b ->
  file_a <> file_b ->
  let path_a := temp_prefix +:+ name_a in
  let path_b := temp_prefix +:+ name_b in
  let wa := step L w (Upload name_a data_a) in
  let wb := step L w (Upload name_b data_b) in
  let wab := step L wa (Upload name_b data_b) in
  let wba := step L wb (Upload name_a data_a) in
  path_a <> path_b
  /\ files wab !! path_a = Some (uploaded data_a)
  /\ files wab !! path_b = Some (uploaded data_b)
  /\ files wba !! path_a = Some (uploaded data_a)
  /\ files wba !! path_b = Some (uploaded data_b)
  /\ (exists ea eb,
        page wa = page w ++ ea /\ page wb = page w ++ eb
        /\ page wab = page w ++ ea ++ eb /\ page wba = page w ++ eb ++ ea)
  /\ (exists na nb,
        notes wa = notes w ++ na /\ notes wb = notes w ++ nb
        /\ notes wab = notes w ++ na ++ nb /\ notes wba = notes w ++ nb ++ na)
  /\ (forall sn, fst (read_file L path_a sn wab) = fst (read_file L path_a sn wa))
  /\ (forall v, fst (pd_read_csv L path_a v wab) = fst (pd_read_csv L path_a v wa)).
Proof.
  intros Ha Hb Hne. cbv zeta.
  destruct (upload_resolved L name_a data_a _ Ha) as (ea & na & ta & Ea).
  destruct (upload_resolved L name_b data_b _ Hb) as (eb & nb & tb & Eb).
  rewrite !Ea, !Eb. cbn [files page notes].
  assert (Hkeep : forall m,
            stored_files name_b data_b (stored_files name_a data_a m)
            !! (temp_prefix +:+ name_a) = Some (uploaded data_a)).
  { intros m. rewrite (stored_files_apart name_b data_b _ _ _ _ Hb Ha Hne).
    apply (stored_files_lookup _ _ _ _ Ha). }
  assert (Hkeep' : forall m,
            stored_files name_a data_a (stored_files name_b data_b m)
            !! (temp_prefix +:+ name_b) = Some (uploaded data_b)).
  { intros m.
    rewrite (stored_files_apart name_a data_a _ _ _ _ Ha Hb) by congruence.
    apply (stored_files_lookup _ _ _ _ Hb). }
  split; [intros E; rewrite E in Ha; congruence|].
  split; [apply Hkeep|].
  split; [apply (stored_files_lookup _ _ _ _ Hb)|].
  split; [apply (stored_files_lookup _ _ _ _ Ha)|].
  split; [apply Hkeep'|].
  split; [exists ea, eb; rewrite <- !app_assoc; auto|].
  split; [exists na, nb; rewrite <- !app_assoc; auto|].
  split.
  - intros sn. apply (reads_only_result _ _ _ _ (reads_only_read_file _ L sn)).
    cbn [files]. rewrite Hkeep. symmetry.
    apply (stored_files_lookup _ _ _ _ Ha).
  - intros v. apply (reads_only_result _ _ _ _ (reads_only_pd_read_csv _ L v)).
    cbn [files]. rewrite Hkeep. symmetry.
    apply (stored_files_lookup _ _ _ _ Ha).
Qed.

Lemma uploads_of_different_files_independent_witness :
  let L := Ref.libs [] in
  let wab := step L (step L initial (Upload "a.csv" Examples.people_csv))
               (Upload "./b.csv" Examples.numbers_csv) in
  files wab !! "temp/a.csv" = Some (uploaded Examples.people_csv)
  /\ files wab !! "temp/./b.csv" = Some (uploaded Examples.numbers_csv).
Proof.
  cbv zeta.
  destruct (uploads_of_different_files_independent (Ref.libs []) initial
              "a.csv" "./b.csv" Examples.people_csv Examples.numbers_csv
              ["a.csv"; "temp"] ["b.csv"; "temp"] eq_refl eq_refl)
    as (_ & H1 & H2 & _).
  - discriminate.
  - split; [exact H1 | exact H2].
Defined.

(** C7 (as stated) fails: two different files whose names denote one temp
    file share it.  The first upload waits at its delimiter prompt; the second
    overwrites the file; the delimiter then submitted for the first upload
    shows the rows and columns of the second.  Alone, the first upload would
    have shown its own column.  So it is with one name used twice, and with
    the two names [data.csv] and [./data.csv]. *)
Lemma uploads_of_one_temp_file_interfere :
  let L := Ref.libs [] in
  let w1 := step L initial (Upload "data.csv" Examples.single_column_csv) in
  let w2 := step L w1 (Upload "data.csv" Examples.pq_csv) in
  let w3 := step L w2 (SubmitDelimiter 0 ",") in
  let v2 := step L w1 (Upload "./data.csv" Examples.pq_csv) in
  let v3 := step L v2 (SubmitDelimiter 0 ",") in
  let pq := {| tcolumns := ["p"; "q"];
               trows := [[("p", SInt 7); ("q", SInt 8)]] |} in
  Examples.single_column_csv <> Examples.pq_csv
  /\ page w1 = [DelimiterPrompt "temp/data.csv"]
  /\ files w2 !! "temp/data.csv" = Some (uploaded Examples.pq_csv)
  /\ page w3 = [Cleared; Card "Preview of temp/data.csv" (Some pq);
                Card "Preview of temp/data.csv" (Some pq)]
  /\ "data.csv" <> "./data.csv"
  /\ files v2 !! "temp/data.csv" = Some (uploaded Examples.pq_csv)
  /\ page v3 = [Cleared; Card "Preview of temp/./data.csv" (Some pq);
                Card "Preview of temp/data.csv" (Some pq)]
  /\ page (step L w1 (SubmitDelimiter 0 ","))
     = [Cleared;
        Card "Preview of temp/data.csv"
          (Some {| tcolumns := ["x"];
                   trows := [[("x", SInt 1)]; [("x", SInt 2)]] |})].
Proof. vm_compute. repeat split; discriminate. Qed.

(** ** The disk *)

Lemma reads_only_keeps_disk fp {A} (m : M A) : reads_only fp m -> keeps_disk m.
Proof.
  intros Hm w. destruct (Hm (files w !! fp)) as (r & dp & dt & H).
  rewrite (H w eq_refl). split; reflexivity.
Qed.

Lemma keeps_disk_bind {A B} (m : M A) (k : A -> M B) :
  keeps_disk m -> (forall a, keeps_disk (k a)) -> keeps_disk (bind m k).
Proof.
  intros Hm Hk w. unfold bind. specialize (Hm w).
  destruct (m w) as [[a|e] w1]; cbn [snd] in *; [|exact Hm].
  destruct (Hk a w1) as [H1 H2]. destruct Hm as [H3 H4].
  split; congruence.
Qed.

Lemma keeps_disk_try_except {A} (m : M A) (h : exn -> M A) :
  keeps_disk m -> (forall e, keeps_disk (h e)) -> keeps_disk (try_except m h).
Proof.
  intros Hm Hh w. unfold try_except. specialize (Hm w).
  destruct (m w) as [[a|e] w1]; cbn [snd] in *; [exact Hm|].
  destruct (Hh e w1) as [H1 H2]. destruct Hm as [H3 H4].
  split; congruence.
Qed.

Lemma keeps_disk_set_element i e : keeps_disk (set_element i e).
Proof. intros w. split; reflexivity. Qed.

Lemma keeps_disk_ui_notify msg : keeps_disk (ui_notify msg).
Proof. intros w. split; reflexivity. Qed.

Lemma keeps_disk_ret {A} (a : A) : keeps_disk (ret a).
Proof. intros w. split; reflexivity. Qed.

Lemma keeps_disk_handle_manual_delimiter L fp v c :
  keeps_disk (handle_manual_delimiter L fp v c).
Proof.
  unfold handle_manual_delimiter.
  apply keeps_disk_try_except; [|intros e; apply keeps_disk_ui_notify].
  apply keeps_disk_bind;
    [apply (reads_only_keeps_disk fp), reads_only_pd_read_csv|intros df].
  apply keeps_disk_bind; [apply keeps_disk_set_element|intros _].
  apply (reads_only_keeps_disk fp), reads_only_display_table.
Qed.

Lemma keeps_disk_handle_excel_sheet L fp sn c :
  keeps_disk (handle_excel_sheet L fp sn c).
Proof.
  unfold handle_excel_sheet.
  apply keeps_disk_bind;
    [apply (reads_only_keeps_disk fp), reads_only_read_file|intros [v|]].
  - apply (reads_only_keeps_disk fp), reads_only_display_table.
  - apply keeps_disk_ret.
Qed.

Lemma keeps_disk_inside_row {A} c (m : M A) :
  keeps_disk m -> keeps_disk (inside_row c m).
Proof. intros Hm w. in_row. apply Hm. Qed.

(** Every event but an upload and the shutdown leaves the disk alone. *)
Lemma step_keeps_disk L w ev :
  match ev with
  | Upload _ _ | Shutdown => True
  | _ => files (step L w ev) = files w
         /\ temp_exists (step L w ev) = temp_exists w
  end.
Proof.
  destruct ev as [name data|c v|c v|c|c|]; try exact I; unfold step, handler.
  - destruct (page w !! c) as [[]|]; try (split; reflexivity).
    apply keeps_disk_inside_row, keeps_disk_handle_manual_delimiter.
  - destruct (page w !! c) as [[]|]; try (split; reflexivity).
    apply keeps_disk_inside_row, keeps_disk_handle_excel_sheet.
  - destruct (page w !! c) as [[]|]; split; reflexivity.
  - destruct (page w !! c) as [[| | |label [t|]|]|]; try (split; reflexivity).
Qed.

Lemma upload_files L w name data :
  temp_exists (step L w (Upload name data)) = true
  /\ files (step L w (Upload name data)) = stored_files name data (files w).
Proof.
  destruct (resolve true (temp_prefix +:+ name)) as [t|e] eqn:Hr.
  - destruct (upload_resolved L name data t Hr) as (dp & dn & dt & E).
    rewrite E. split; reflexivity.
  - rewrite (upload_unresolved L name data w e Hr). unfold stored_files.
    rewrite Hr. split; reflexivity.
Qed.

Lemma shutdown_run L w :
  step L w Shutdown
  = with_running false
      (if temp_exists w
       then with_temp false
              (with_files
                 (filter (fun kv => in_temp (fst kv) = false) (files w)) w)
       else w).
Proof.
  unfold step, handler, shutdown, bind, os_path_exists_temp,
    shutil_rmtree_temp, app_shutdown, ret.
  destruct (temp_exists w); reflexivity.
Qed.

Lemma rmtree_no_temp_files w :
  no_temp_files
    (with_temp false
       (with_files (filter (fun kv => in_temp (fst kv) = false) (files w)) w)).
Proof.
  intros path Hin. cbn [files with_temp with_files].
  apply map_lookup_filter_None. right. intros f _. cbn [fst]. congruence.
Qed.

Lemma shutdown_no_temp_files L w :
  temp_consistent w -> no_temp_files (step L w Shutdown).
Proof.
  intros Hc. rewrite shutdown_run.
  destruct (temp_exists w) eqn:Ht.
  - intros path Hin. apply (rmtree_no_temp_files w path Hin).
  - intros path Hin. apply (Hc Ht path Hin).
Qed.

Lemma step_consistent L w ev : temp_consistent w -> temp_consistent (step L w ev).
Proof.
  intros Hc.
  pose proof (step_keeps_disk L w ev) as Hk.
  destruct ev as [name data|c v|c v|c|c|].
  - intros Ht. destruct (upload_files L w name data) as [E _]. congruence.
  - destruct Hk as [Hf Ht]. intros H path Hin. rewrite Hf. apply Hc; congruence.
  - destruct Hk as [Hf Ht]. intros H path Hin. rewrite Hf. apply Hc; congruence.
  - destruct Hk as [Hf Ht]. intros H path Hin. rewrite Hf. apply Hc; congruence.
  - destruct Hk as [Hf Ht]. intros H path Hin. rewrite Hf. apply Hc; congruence.
  - intros _. apply shutdown_no_temp_files, Hc.
Qed.

Lemma run_consistent L evs : forall w,
  temp_consistent w -> temp_consistent (run L w evs).
Proof.
  induction evs as [|ev evs IH]; intros w Hc; [exact Hc|].
  apply IH, step_consistent, Hc.
Qed.

Lemma prefix_app p : forall s, String.prefix p s = true -> exists rest, s = p +:+ rest.
Proof.
  induction p as [|a p IH]; intros s H; [exists s; reflexivity|].
  destruct s as [|b s]; [discriminate|]. simpl in H.
  destruct (ascii_dec a b) as [->|]; [|discriminate].
  destruct (IH s H) as (rest & ->). exists rest. reflexivity.
Qed.

(** A name without a separator is no path into [temp/]. *)
Lemma plain_name_outside_temp base : plain_name base = true -> in_temp base = false.
Proof.
  intros H. apply plain_name_cases in H as (_ & H & _).
  unfold in_temp. destruct (String.prefix temp_prefix base) eqn:E; [|reflexivity].
  apply prefix_app in E as (rest & ->). simpl in H. discriminate.
Qed.

(** A name that climbs out of the temp directory resolves to a file beside
    it. *)
Lemma resolve_parent base :
  plain_name base = true -> base <> "temp" ->
  resolve true (temp_prefix +:+ "../" +:+ base) = Ok [base].
Proof.
  intros H Ht. apply plain_name_cases in H as (H0 & H1 & H2 & H3).
  unfold resolve, temp_prefix.
  change ("temp/" +:+ "../" +:+ base)
    with ("temp" +:+ String "/" (".." +:+ String "/" base)).
  rewrite !split_append.
  rewrite (split_no_separator "/" base) by assumption.
  rewrite (split_no_separator "/" "temp"), (split_no_separator "/" "..")
    by reflexivity.
  cbn [app]. rewrite !walk_cons.
  change ("temp" =? "")%string with false.
  change ("temp" =? ".")%string with false.
  change ("temp" =? "..")%string with false.
  change (".." =? "")%string with false.
  change (".." =? ".")%string with false.
  change (".." =? "..")%string with true.
  change (is_dir true ["temp"]) with true. cbn [orb up].
  change ("temp" =? "..")%string with false. cbn match.
  apply walk_last; try assumption.
  unfold is_dir. cbn [forallb]. apply String.eqb_neq in H3.
  rewrite (String.eqb_sym ".." base), H3.
  rewrite bool_decide_eq_false_2 by congruence. reflexivity.
Qed.

(** A name that starts with [./] resolves to the file of the name that
    follows. *)
Lemma resolve_here base :
  plain_name base = true ->
  resolve true (temp_prefix +:+ "./" +:+ base) = Ok [base; "temp"].
Proof.
  intros H. pose proof (resolve_plain base H) as Hr. revert Hr.
  apply plain_name_cases in H as (H0 & H1 & H2 & H3).
  unfold resolve, temp_prefix.
  change ("temp/" +:+ "./" +:+ base)
    with ("temp" +:+ String "/" ("." +:+ String "/" base)).
  change ("temp/" +:+ base) with ("temp" +:+ String "/" base).
  rewrite !split_append.
  rewrite (split_no_separator "/" base) by assumption.
  rewrite (split_no_separator "/" "temp"), (split_no_separator "/" ".")
    by reflexivity.
  cbn [app]. rewrite !walk_cons.
  change ("temp" =? "")%string with false.
  change ("temp" =? ".")%string with false.
  change ("temp" =? "..")%string with false.
  change ("." =? "")%string with false.
  change ("." =? ".")%string with true.
  change (is_dir true ["temp"]) with true. cbn [orb].
  intros Hr. exact Hr.
Qed.

Lemma shutdown_outside_temp L w path :
  in_temp path = false ->
  files (step L w Shutdown) !! path = files w !! path.
Proof.
  intros Hout. rewrite shutdown_run.
  destruct (temp_exists w); [|reflexivity].
  cbn [files with_running with_temp with_files].
  destruct (files w !! path) as [f|] eqn:Hf.
  - apply map_lookup_filter_Some. split; [exact Hf|exact Hout].
  - apply map_lookup_filter_None. left. exact Hf.
Qed.

(** C8: what the code does where the claim speaks of the temp files.  An
    upload removes no path.  An upload whose path can be opened is found
    under that path afterwards, and every path to another file finds what it
    found before.  The other events before shutdown do not touch the disk at
    all.  Shutdown, after any sequence of events, leaves nothing to open under
    the temp directory; the directory is removed first, then the application
    is stopped.  But the file of an upload need not be under the temp
    directory: an upload named [../base] is written beside the directory,
    over whatever was there, and is still there after shutdown.  Nor does it
    only add a file: an upload named [./base] replaces the temp file of an
    upload named [base]. *)
Theorem upload_can_escape_temp_cleanup (L : Libs) (w : World) :
  (forall name data path,
     is_Some (files w !! path) ->
     is_Some (files (step L w (Upload name data)) !! path))
  /\ (forall name data target,
        resolve true (temp_prefix +:+ name) = Ok target ->
        files (step L w (Upload name data)) !! (temp_prefix +:+ name)
        = Some (uploaded data)
        /\ (forall path other,
              resolve true path = Ok other -> other <> target ->
              files (step L w (Upload name data)) !! path = files w !! path))
  /\ (forall ev,
        match ev with
        | Upload _ _ | Shutdown => True
        | _ => files (step L w ev) = files w
        end)
  /\ (forall evs,
        temp_consistent w ->
        no_temp_files (step L (run L w evs) Shutdown)
        /\ running (step L (run L w evs) Shutdown) = false)
  /\ (let w1 :=
        snd ((ex <- os_path_exists_temp ;;
              if ex : bool then shutil_rmtree_temp else ret tt)%py w) in
      running w1 = running w
      /\ (temp_consistent w -> no_temp_files w1)
      /\ step L w Shutdown = snd (app_shutdown w1))
  /\ (forall base data,
        plain_name base = true -> base <> "temp" ->
        let w1 := step L w (Upload ("../" +:+ base) data) in
        in_temp base = false
        /\ files w1 !! base = Some (uploaded data)
        /\ files (step L w1 Shutdown) !! base = Some (uploaded data))
  /\ (forall base data,
        plain_name base = true ->
        files (step L w (Upload ("./" +:+ base) data)) !! (temp_prefix +:+ base)
        = Some (uploaded data)).
Proof.
  split; [|split; [|split; [|split; [|split; [|split]]]]].
  - intros name data path Hf.
    destruct (upload_files L w name data) as [_ E]. rewrite E.
    apply stored_files_keeps, Hf.
  - intros name data target Hr.
    destruct (upload_files L w name data) as [_ E]. rewrite E.
    split; [apply (stored_files_lookup _ _ _ _ Hr)|].
    intros path other Hp Hne.
    apply (stored_files_apart _ _ _ _ _ _ Hr Hp Hne).
  - intros ev. pose proof (step_keeps_disk L w ev) as H.
    destruct ev; try exact I; apply H.
  - intros evs Hc. split.
    + apply shutdown_no_temp_files, run_consistent, Hc.
    + rewrite shutdown_run. reflexivity.
  - cbv zeta.
    unfold bind, os_path_exists_temp, shutil_rmtree_temp, ret, step, handler,
      shutdown, app_shutdown.
    cbn. destruct (temp_exists w) eqn:Ht; cbn.
    + split; [reflexivity|]. split; [|reflexivity].
      intros _. apply rmtree_no_temp_files.
    + split; [reflexivity|]. split; [|reflexivity].
      intros Hc. apply Hc, Ht.
  - intros base data Hplain Ht. cbv zeta.
    pose proof (plain_name_outside_temp base Hplain) as Hout.
    assert (Hw : files (step L w (Upload ("../" +:+ base) data)) !! base
                 = Some (uploaded data)).
    { destruct (upload_files L w ("../" +:+ base) data) as [_ E]. rewrite E.
      unfold stored_files. rewrite (resolve_parent base Hplain Ht).
      rewrite lookup_write_through.
      rewrite (bool_decide_eq_true_2 (base = path_string [base]))
        by reflexivity.
      rewrite orb_true_r. reflexivity. }
    split; [exact Hout|]. split; [exact Hw|].
    rewrite (shutdown_outside_temp L _ base Hout). exact Hw.
  - intros base data Hplain.
    destruct (upload_files L w ("./" +:+ base) data) as [_ E]. rewrite E.
    unfold stored_files. rewrite (resolve_here base Hplain).
    rewrite lookup_write_through.
    rewrite (bool_decide_eq_true_2
               (temp_prefix +:+ base = path_string [base; "temp"]))
      by reflexivity.
    rewrite orb_true_r. reflexivity.
Qed.

Lemma upload_can_escape_temp_cleanup_witness :
  let L := Ref.libs [] in
  let w := Examples.on_disk "x.csv" Examples.people_csv in
  let w1 := step L w (Upload "../x.csv" Examples.numbers_csv) in
  in_temp "x.csv" = false
  /\ files w !! "x.csv" = Some (uploaded Examples.people_csv)
  /\ files w1 !! "x.csv" = Some (uploaded Examples.numbers_csv)
  /\ files (step L w1 Shutdown) !! "x.csv"
     = Some (uploaded Examples.numbers_csv).
Proof.
  cbv zeta.
  destruct (upload_can_escape_temp_cleanup (Ref.libs [])
              (Examples.on_disk "x.csv" Examples.people_csv))
    as (_ & _ & _ & _ & _ & H & _).
  destruct (H "x.csv" Examples.numbers_csv eq_refl) as (H1 & H2 & H3).
  - discriminate.
  - split; [exact H1|]. split; [reflexivity|]. split; [exact H2 | exact H3].
Defined.

(** ** Workbooks *)

(** What the Excel arm of [read_file] does on a readable workbook. *)
Lemma read_file_excel_run L fp sn w f xl :
  files w !! fp = Some f -> readable f = true ->
  open_workbook L (content f) = Ok xl ->
  read_file_excel L fp sn w =
  if (1 <? length xl)%nat && negb (truthy sn)
  then (Ok None, extend w [SheetPrompt fp (sheet_names xl)] [CExcelFile fp])
  else
    (match sn with
     | None =>
         match all_sheets xl with
         | Ok d => Ok (Some (PyDict d))
         | Raise e => Raise e
         end
     | Some name =>
         match find_sheet name xl with
         | None =>
             Raise (Exn "ValueError"
                      ("Worksheet named '" +:+ name +:+ "' not found"))
         | Some (Ok df) => Ok (Some (PyDataFrame df))
         | Some (Raise e) => Raise e
         end
     end, extend w [] [CExcelFile fp; CReadExcel fp sn]).
Proof.
  intros Hf Hr Hxl.
  py_unfold. cbn -[Nat.ltb]. rewrite Hf, Hr, Hxl. cbn -[Nat.ltb].
  unfold sheet_names, extend, with_page, with_trace. rewrite length_map.
  destruct ((1 <? length xl)%nat && negb (truthy sn)); cbn.
  - reflexivity.
  - rewrite Hf, Hr, Hxl, app_nil_r, <- app_assoc. cbn.
    destruct sn as [name|].
    + destruct (find_sheet name xl) as [[df|e]|]; reflexivity.
    + destruct (all_sheets xl); reflexivity.
Qed.

Lemma truthy_nonempty name : name <> "" -> truthy (Some name) = true.
Proof.
  intros H. unfold truthy, truthy_str.
  destruct (String.eqb_spec name ""); [contradiction|reflexivity].
Qed.

(** A workbook with two or more sheets and no sheet chosen: [read_file]
    returns [None] and leaves a prompt offering all the sheet names; no sheet
    is parsed. *)
Lemma excel_many_sheets_prompt L fp w f xl :
  is_excel_ext (ext_of fp) = true ->
  files w !! fp = Some f -> readable f = true ->
  open_workbook L (content f) = Ok xl ->
  2 <= length xl ->
  read_file L fp None w
  = (Ok None, extend w [SheetPrompt fp (sheet_names xl)] [CExcelFile fp]).
Proof.
  intros Hext Hf Hr Hxl Hlen.
  rewrite (read_file_excel_arm L fp None Hext).
  rewrite (read_file_excel_run L fp None w f xl Hf Hr Hxl).
  destruct (Nat.ltb_spec 1 (length xl)); [reflexivity|lia].
Qed.

(** Choosing one of the offered names gives the frame of that sheet, which
    is what [pandas.read_excel] gives for that name. *)
Lemma excel_chosen_sheet L fp w f xl name df :
  is_excel_ext (ext_of fp) = true ->
  files w !! fp = Some f -> readable f = true ->
  open_workbook L (content f) = Ok xl ->
  name <> "" ->
  find_sheet name xl = Some (Ok df) ->
  fst (read_file L fp (Some name) w) = Ok (Some (PyDataFrame df))
  /\ fst (pd_read_excel L fp (Some name) w) = Ok (PyDataFrame df).
Proof.
  intros Hext Hf Hr Hxl Hname Hfind.
  rewrite (read_file_excel_arm L fp _ Hext).
  rewrite (read_file_excel_run L fp _ w f xl Hf Hr Hxl).
  rewrite (truthy_nonempty name Hname), andb_false_r, Hfind.
  split; [reflexivity|].
  py_unfold. cbn. rewrite Hf, Hr, Hxl. cbn. rewrite Hfind. reflexivity.
Qed.

(** A workbook with one sheet and no sheet chosen: [read_excel] is called
    with [sheet_name=None] and [read_file] returns a [dict], not a frame. *)
Lemma excel_single_sheet_returns_dict L fp w f name df :
  is_excel_ext (ext_of fp) = true ->
  files w !! fp = Some f -> readable f = true ->
  open_workbook L (content f) = Ok [(name, Ok df)] ->
  read_file L fp None w
  = (Ok (Some (PyDict [(name, df)])),
     extend w [] [CExcelFile fp; CReadExcel fp None]).
Proof.
  intros Hext Hf Hr Hxl.
  rewrite (read_file_excel_arm L fp None Hext).
  rewrite (read_file_excel_run L fp None w f _ Hf Hr Hxl). reflexivity.
Qed.

(** C1 (code bug): what [read_file] does on a readable workbook.  With one
    sheet and no sheet chosen it does not prompt, but it returns the [dict] of
    all sheets, not the frame of the sole sheet, and [display_table] raises on
    that value.  With two or more sheets and no sheet chosen it returns [None]
    and leaves a prompt offering all the sheet names.  With one of the names
    chosen it returns the frame that [pandas.read_excel] gives for that
    name. *)
Theorem excel_sheet_resolution (L : Libs) (filepath : string) (w : World)
  (f : file) (xl : workbook) :
  is_excel_ext (ext_of filepath) = true ->
  files w !! filepath = Some f ->
  readable f = true ->
  open_workbook L (content f) = Ok xl ->
  (forall name df,
     xl = [(name, Ok df)] ->
     read_file L filepath None w
     = (Ok (Some (PyDict [(name, df)])),
        extend w [] [CExcelFile filepath; CReadExcel filepath None])
     /\ forall w',
          fst (display_table filepath (PyDict [(name, df)]) w')
          = Raise (Exn "AttributeError"
                     "'dict' object has no attribute 'columns'"))
  /\ (2 <= length xl ->
      read_file L filepath None w
      = (Ok None,
         extend w [SheetPrompt filepath (sheet_names xl)] [CExcelFile filepath]))
  /\ (forall name df,
        name <> "" ->
        find_sheet name xl = Some (Ok df) ->
        fst (read_file L filepath (Some name) w) = Ok (Some (PyDataFrame df))
        /\ fst (pd_read_excel L filepath (Some name) w) = Ok (PyDataFrame df)).
Proof.
  intros Hext Hf Hr Hxl. split; [|split].
  - intros name df ->. split.
    + apply (excel_single_sheet_returns_dict L filepath w f name df); assumption.
    + intros w'.
      destruct (display_table_run filepath (PyDict [(name, df)]) w')
        as (r & c & E & -> & _).
      rewrite E. reflexivity.
  - intros Hlen. apply (excel_many_sheets_prompt L filepath w f xl); assumption.
  - intros name df Hname Hfind.
    apply (excel_chosen_sheet L filepath w f xl name df); assumption.
Qed.

Lemma excel_sheet_resolution_witness :
  let L := Ref.libs Examples.books in
  fst (read_file L "temp/book.xlsx" None
         (stored "book.xlsx" Examples.one_sheet_book initial))
  = Ok (Some (PyDict [("Sheet1", Examples.people)]))
  /\ fst (read_file L "temp/year.xlsx" (Some "Feb")
            (stored "year.xlsx" Examples.two_sheet_book initial))
     = Ok (Some (PyDataFrame Examples.february)).
Proof.
  cbv zeta. split.
  - destruct (excel_sheet_resolution (Ref.libs Examples.books)
                "temp/book.xlsx"
                (stored "book.xlsx" Examples.one_sheet_book initial)
                (uploaded Examples.one_sheet_book)
                [("Sheet1", Ok Examples.people)]
                eq_refl eq_refl eq_refl eq_refl) as (H & _ & _).
    destruct (H "Sheet1" Examples.people eq_refl) as (E & _).
    rewrite E. reflexivity.
  - destruct (excel_sheet_resolution (Ref.libs Examples.books)
                "temp/year.xlsx"
                (stored "year.xlsx" Examples.two_sheet_book initial)
                (uploaded Examples.two_sheet_book)
                [("Jan", Ok Examples.january); ("Feb", Ok Examples.february)]
                eq_refl eq_refl eq_refl eq_refl) as (_ & _ & H).
    destruct (H "Feb" Examples.february) as (E & _);
      [discriminate|reflexivity|exact E].
Defined.

(** The upload of a workbook with the single sheet [Sheet1] ends with an
    empty card and an error notification instead of a preview; the upload of
    a workbook with two sheets prompts with both names, and loading one of
    them shows it. *)
Example single_sheet_workbook_is_not_previewed :
  let L := Ref.libs Examples.books in
  let w := step L initial (Upload "book.xlsx" Examples.one_sheet_book) in
  let w2 := step L initial (Upload "year.xlsx" Examples.two_sheet_book) in
  page w = [Card "Preview of temp/book.xlsx" None]
  /\ notes w = ["Error: 'dict' object has no attribute 'columns'"]
  /\ page w2 = [SheetPrompt "temp/year.xlsx" ["Jan"; "Feb"]]
  /\ page (step L w2 (LoadSheet 0 (Some "Feb")))
     = [SheetPrompt "temp/year.xlsx" ["Jan"; "Feb"];
        Card "Preview of temp/year.xlsx"
          (Some {| tcolumns := ["day"; "sales"];
                   trows := [[("day", SInt 1); ("sales", SInt 12)]] |})].
Proof. vm_compute. repeat split. Qed.

(** * Further properties of the handlers *)

(** ** What [read_file] leaves on the page *)

Lemma keeps_page_ret {A} (a : A) : keeps_page (ret a).
Proof. intros w. reflexivity. Qed.

Lemma keeps_page_raise {A} e : keeps_page (@raise A e).
Proof. intros w. reflexivity. Qed.

Lemma keeps_page_lift {A} (r : Res A) : keeps_page (lift r).
Proof. intros w. reflexivity. Qed.

Lemma keeps_page_log c : keeps_page (log c).
Proof. intros w. reflexivity. Qed.

Lemma keeps_page_open_read fp : keeps_page (open_read fp).
Proof.
  intros w. unfold open_read.
  destruct (files w !! fp) as [f|]; [destruct (readable f)|]; reflexivity.
Qed.

Lemma keeps_page_bind {A B} (m : M A) (k : A -> M B) :
  keeps_page m -> (forall a, keeps_page (k a)) -> keeps_page (bind m k).
Proof.
  intros Hm Hk w. unfold bind. specialize (Hm w).
  destruct (m w) as [[a|e] w1]; cbn [snd] in *; [|exact Hm].
  rewrite (Hk a w1). exact Hm.
Qed.

Lemma keeps_page_try_except {A} (m : M A) (h : exn -> M A) :
  keeps_page m -> (forall e, keeps_page (h e)) -> keeps_page (try_except m h).
Proof.
  intros Hm Hh w. unfold try_except. specialize (Hm w).
  destruct (m w) as [[a|e] w1]; cbn [snd] in *; [exact Hm|].
  rewrite (Hh e w1). exact Hm.
Qed.

Create HintDb page.

#[local] Hint Resolve keeps_page_ret keeps_page_raise keeps_page_lift
  keeps_page_log keeps_page_open_read : page.

Ltac keeps_page :=
  repeat first
    [ solve [auto with page]
    | apply keeps_page_bind; [|intros ?]
    | apply keeps_page_try_except; [|intros ?]
    | match goal with
      | |- keeps_page (if ?b then _ else _) => destruct b
      | |- keeps_page (match ?x with _ => _ end) => destruct x
      end ].

Lemma keeps_page_detect L fp : keeps_page (detect_csv_delimiter L fp).
Proof.
  unfold detect_csv_delimiter, file_read, csv_has_header, csv_sniff. keeps_page.
Qed.

Lemma keeps_page_pd_read_csv L fp d : keeps_page (pd_read_csv L fp d).
Proof. unfold pd_read_csv. keeps_page. Qed.

Lemma keeps_page_pd_ExcelFile L fp : keeps_page (pd_ExcelFile L fp).
Proof. unfold pd_ExcelFile. keeps_page. Qed.

Lemma keeps_page_pd_read_excel L fp sn : keeps_page (pd_read_excel L fp sn).
Proof. unfold pd_read_excel. keeps_page. Qed.

Lemma keeps_page_read_sas7bdat L fp : keeps_page (pyreadstat_read_sas7bdat L fp).
Proof. unfold pyreadstat_read_sas7bdat. keeps_page. Qed.

Lemma keeps_page_read_xport L fp : keeps_page (pyreadstat_read_xport L fp).
Proof. unfold pyreadstat_read_xport. keeps_page. Qed.

Lemma prompts_or_returns_bind fp {A} (m : M A) (k : A -> M (option pyvalue)) :
  keeps_page m -> (forall a, prompts_or_returns fp (k a)) ->
  prompts_or_returns fp (bind m k).
Proof.
  intros Hm Hk w. unfold bind. specialize (Hm w).
  destruct (m w) as [[a|e] w1]; cbn [snd] in *.
  - rewrite <- Hm. apply Hk.
  - right. split; [discriminate|exact Hm].
Qed.

Lemma prompts_or_returns_prompt fp e :
  is_prompt e = true -> prompt_path e = Some fp ->
  prompts_or_returns fp (add_element e ;;; ret None)%py.
Proof. intros H1 H2 w. left. split; [reflexivity|]. exists e. auto. Qed.

Lemma prompts_or_returns_some fp {A} (m : M A) (f : A -> pyvalue) :
  keeps_page m ->
  prompts_or_returns fp (x <- m ;; ret (Some (f x)))%py.
Proof.
  intros Hm w. right. specialize (Hm w). unfold bind, ret.
  destruct (m w) as [[a|e] w1]; cbn [fst snd] in *; split;
    (discriminate || exact Hm).
Qed.

Lemma prompts_or_returns_read_file L fp sn :
  prompts_or_returns fp (read_file L fp sn).
Proof.
  unfold read_file.
  destruct (is_csv_ext (ext_of fp));
    [|destruct (is_excel_ext (ext_of fp));
      [|destruct (ext_of fp =? "sas7bdat")%string;
        [|destruct (ext_of fp =? "xpt")%string]]].
  - unfold read_file_csv.
    apply prompts_or_returns_bind; [apply keeps_page_detect|intros d].
    destruct (negb (truthy d)).
    + apply prompts_or_returns_prompt; reflexivity.
    + apply (prompts_or_returns_some fp _ PyDataFrame), keeps_page_pd_read_csv.
  - unfold read_file_excel.
    apply prompts_or_returns_bind; [apply keeps_page_pd_ExcelFile|intros xl].
    destruct ((1 <? length (sheet_names xl))%nat && negb (truthy sn)).
    + apply prompts_or_returns_prompt; reflexivity.
    + apply (prompts_or_returns_some fp _ (fun v => v)), keeps_page_pd_read_excel.
  - unfold read_file_sas7bdat.
    apply (prompts_or_returns_some fp _ (fun p => PyDataFrame (fst p))),
      keeps_page_read_sas7bdat.
  - unfold read_file_xpt.
    apply (prompts_or_returns_some fp _ (fun p => PyDataFrame (fst p))),
      keeps_page_read_xport.
  - intros w. right. split; [discriminate|reflexivity].
Qed.

(** X1: [read_file] returns [None] exactly when it has left one prompt for
    the file on the page; otherwise the page is as before.  In every case the
    disk, the notifications and the running flag are untouched and the trace
    only grows. *)
Theorem read_file_none_iff_prompt (L : Libs) (filepath : string)
  (sheet_name : option string) (w : World) :
  let r := fst (read_file L filepath sheet_name w) in
  let w' := snd (read_file L filepath sheet_name w) in
  files w' = files w /\ temp_exists w' = temp_exists w
  /\ notes w' = notes w /\ running w' = running w
  /\ (exists dt, trace w' = trace w ++ dt)
  /\ (r = Ok None <->
      exists e, page w' = page w ++ [e] /\ is_prompt e = true
                /\ prompt_path e = Some filepath)
  /\ (r <> Ok None <-> page w' = page w).
Proof.
  cbv zeta.
  destruct (reads_only_read_file filepath L sheet_name (files w !! filepath))
    as (r & dp & dt & H).
  pose proof (prompts_or_returns_read_file L filepath sheet_name w) as Hp.
  rewrite (H w eq_refl) in *. cbn [fst snd extend files temp_exists notes
    running trace page] in *.
  repeat split; eauto.
  - intros Hr. destruct Hp as [[_ He]|[Hn _]]; [exact He|contradiction].
  - intros (e & He & _). destruct Hp as [[Hr _]|[_ Hq]]; [exact Hr|].
    rewrite Hq in He. apply (f_equal length) in He.
    rewrite length_app in He. cbn in He. lia.
  - intros Hr. destruct Hp as [[Hr' _]|[_ Hq]]; [contradiction|exact Hq].
  - intros Hq. destruct Hp as [[_ (e & He & _)]|[Hn _]]; [|exact Hn].
    rewrite Hq in He. apply (f_equal length) in He.
    rewrite length_app in He. cbn in He. lia.
Qed.

Lemma read_file_shape L fp sn w :
  exists r dp dt,
    read_file L fp sn w = (r, extend w dp dt)
    /\ ((r = Ok None
         /\ exists e, dp = [e] /\ is_prompt e = true /\ prompt_path e = Some fp)
        \/ (r <> Ok None /\ dp = [])).
Proof.
  destruct (reads_only_read_file fp L sn (files w !! fp)) as (r & dp & dt & H).
  pose proof (prompts_or_returns_read_file L fp sn w) as Hp.
  exists r, dp, dt. split; [apply H; reflexivity|].
  rewrite (H w eq_refl) in Hp. cbn [fst snd extend page] in Hp.
  destruct Hp as [[Hr (e & He & Hk)]|[Hr He]].
  - left. split; [exact Hr|]. exists e. split; [|exact Hk].
    apply (app_inv_head (page w)), He.
  - right. split; [exact Hr|].
    apply (app_inv_head (page w)). rewrite app_nil_r. exact He.
Qed.

(** ** Uploads *)

(** X2: [handle_upload] never raises, and an upload ends in exactly one of
    four ways: a prompt for the uploaded file is added and nothing is
    notified; a preview card with its table is added and nothing is notified;
    a card without a table is added and one error is notified; or the page is
    left alone and one error is notified. *)
Theorem upload_outcomes (L : Libs) (name : string) (data : bytes) (w : World) :
  let w' := step L w (Upload name data) in
  let label := "Preview of " +:+ temp_prefix +:+ name in
  fst (handle_upload L name data w) = Ok tt
  /\ ((exists e, is_prompt e = true
                 /\ prompt_path e = Some (temp_prefix +:+ name)
                 /\ page w' = page w ++ [e] /\ notes w' = notes w)
      \/ (exists t, page w' = page w ++ [Card label (Some t)]
                    /\ notes w' = notes w)
      \/ (exists msg, page w' = page w ++ [Card label None]
                      /\ notes w' = notes w ++ [msg])
      \/ (exists msg, page w' = page w /\ notes w' = notes w ++ [msg])).
Proof.
  cbv zeta. split.
  { rewrite handle_upload_unfold. unfold try_except.
    match goal with |- context [match ?b w with _ => _ end] =>
      destruct (b w) as [[[]|e] w1] end; reflexivity. }
  rewrite upload_run.
  destruct (resolve true (temp_prefix +:+ name)) as [target|e0].
  2:{ right. right. right. eexists. split; reflexivity. }
  unfold read_and_display, bind.
  destruct (read_file_shape L (temp_prefix +:+ name) None (stored name data w))
    as (r & dp & dt & E & Hshape).
  rewrite E.
  destruct Hshape as [[-> (e & -> & He & Hp)]|[Hr ->]].
  - left. exists e. cbn. auto.
  - destruct r as [[v|]|e]; [| contradiction |].
    + destruct (display_table_run (temp_prefix +:+ name) v
                  (extend (stored name data w) [] dt))
        as (r' & c & Ed & Hv).
      rewrite Ed. destruct v as [df|d]; destruct Hv as [-> ->].
      * right. left. eexists. cbn. rewrite app_nil_r. split; reflexivity.
      * right. right. left. eexists. cbn. rewrite app_nil_r.
        split; reflexivity.
    + right. right. right. eexists. cbn. rewrite app_nil_r.
      split; reflexivity.
Qed.

(** ** Loading a sheet *)

Ltac same_sheet :=
  match goal with
  | He : Some _ = Some _ |- _ => injection He as <-
  end;
  match goal with
  | H : find_sheet ?n ?xl = _, H' : find_sheet ?n ?xl = _ |- _ =>
      rewrite H in H';
      first [discriminate H' | injection H' as <- | injection H' as ->]
  end;
  first [reflexivity | eexists; reflexivity].

(** X3: [handle_excel_sheet] on a readable workbook.  The sheet prompt is
    never cleared and nothing is ever notified.  A chosen sheet that parses is
    shown in a new preview card; a chosen sheet that fails to parse, or that
    the workbook does not have, makes the handler raise, with nothing added
    to the page; no choice on a workbook with two or more sheets adds a
    second prompt. *)
Theorem sheet_load_outcomes (L : Libs) (w : World) (container : nat)
  (filepath : string) (options : list string) (value : option string)
  (f : file) (xl : workbook) :
  page w !! container = Some (SheetPrompt filepath options) ->
  is_excel_ext (ext_of filepath) = true ->
  files w !! filepath = Some f ->
  readable f = true ->
  open_workbook L (content f) = Ok xl ->
  let w' := step L w (LoadSheet container value) in
  let r := fst (handle_excel_sheet L filepath value container w) in
  page w' !! container = Some (SheetPrompt filepath options)
  /\ notes w' = notes w
  /\ files w' = files w
  /\ (forall name df,
        value = Some name -> name <> "" -> find_sheet name xl = Some (Ok df) ->
        r = Ok tt
        /\ page w'
           = page w ++ [Card ("Preview of " +:+ filepath)
                          (Some {| tcolumns := columns df;
                                   trows := to_dict_records (head 10 df) |})])
  /\ (forall name e,
        value = Some name -> name <> "" -> find_sheet name xl = Some (Raise e) ->
        r = Raise e /\ page w' = page w)
  /\ (forall name,
        value = Some name -> name <> "" -> find_sheet name xl = None ->
        (exists e, r = Raise e) /\ page w' = page w)
  /\ (2 <= length xl -> truthy value = false ->
      r = Ok tt /\ page w' = page w ++ [SheetPrompt filepath (sheet_names xl)]).
Proof.
  intros Hc Hext Hf Hr Hxl. cbv zeta. unfold step, handler. rewrite Hc.
  in_row. unfold handle_excel_sheet, bind.
  rewrite (read_file_excel_arm L filepath value Hext).
  rewrite (read_file_excel_run L filepath value w f xl Hf Hr Hxl).
  assert (Hkeep : forall l, (page w ++ l) !! container
                            = Some (SheetPrompt filepath options)).
  { intros l. rewrite lookup_app_l; [exact Hc|].
    apply lookup_lt_Some in Hc. exact Hc. }
  destruct ((1 <? length xl)%nat && negb (truthy value)) eqn:Hmany.
  - apply andb_true_iff in Hmany as [_ Hv]. apply negb_true_iff in Hv.
    cbn. split; [apply Hkeep|]. split; [reflexivity|]. split; [reflexivity|].
    repeat split; try reflexivity;
      match goal with
      | Hn : _ <> "", He : value = Some _ |- _ =>
          rewrite He, (truthy_nonempty _ Hn) in Hv; discriminate
      end.
  - assert (Hfew : 2 <= length xl -> truthy value = false -> False).
    { intros Hlen Hv. rewrite Hv in Hmany.
      destruct (Nat.ltb_spec 1 (length xl)); [discriminate|lia]. }
    destruct value as [name|].
    + destruct (find_sheet name xl) as [[df|e]|] eqn:Hfind.
      * destruct (display_table_run filepath (PyDataFrame df)
                    (extend w [] [CExcelFile filepath;
                                  CReadExcel filepath (Some name)]))
          as (r' & c & Ed & -> & ->).
        rewrite Ed. cbn. rewrite app_nil_r.
        split; [apply Hkeep|]. split; [reflexivity|]. split; [reflexivity|].
        repeat split; try discriminate; try (exfalso; eauto; fail).
        all: same_sheet.
      * cbn. rewrite app_nil_r.
        split; [exact Hc|]. split; [reflexivity|]. split; [reflexivity|].
        repeat split; try discriminate; try (exfalso; eauto; fail).
        all: same_sheet.
      * cbn. rewrite app_nil_r.
        split; [exact Hc|]. split; [reflexivity|]. split; [reflexivity|].
        repeat split; try discriminate; try (exfalso; eauto; fail);
          try (eexists; reflexivity).
        all: same_sheet.
    + destruct (all_sheets xl) as [d|e].
      * destruct (display_table_run filepath (PyDict d)
                    (extend w [] [CExcelFile filepath;
                                  CReadExcel filepath None]))
          as (r' & c & Ed & -> & ->).
        rewrite Ed. cbn. rewrite app_nil_r.
        split; [apply Hkeep|]. split; [reflexivity|]. split; [reflexivity|].
        repeat split; try discriminate; exfalso; eauto.
      * cbn. rewrite app_nil_r.
        split; [exact Hc|]. split; [reflexivity|]. split; [reflexivity|].
        repeat split; try discriminate; exfalso; eauto.
Qed.

Lemma sheet_load_outcomes_witness :
  let L := Ref.libs Examples.books in
  let w := step L initial (Upload "year.xlsx" Examples.two_sheet_book) in
  page (step L w (LoadSheet 0 (Some "Feb")))
  = [SheetPrompt "temp/year.xlsx" ["Jan"; "Feb"];
     Card "Preview of temp/year.xlsx"
       (Some {| tcolumns := ["day"; "sales"];
                trows := [[("day", SInt 1); ("sales", SInt 12)]] |})]
  /\ page (step L w (LoadSheet 0 None))
     = [SheetPrompt "temp/year.xlsx" ["Jan"; "Feb"];
        SheetPrompt "temp/year.xlsx" ["Jan"; "Feb"]].
Proof.
  cbv zeta. split.
  - destruct (sheet_load_outcomes (Ref.libs Examples.books)
                (step (Ref.libs Examples.books) initial
                   (Upload "year.xlsx" Examples.two_sheet_book))
                0 "temp/year.xlsx" ["Jan"; "Feb"] (Some "Feb")
                (uploaded Examples.two_sheet_book)
                [("Jan", Ok Examples.january); ("Feb", Ok Examples.february)]
                eq_refl eq_refl eq_refl eq_refl eq_refl)
      as (_ & _ & _ & H & _).
    destruct (H "Feb" Examples.february eq_refl) as [_ E];
      [discriminate|reflexivity|exact E].
  - destruct (sheet_load_outcomes (Ref.libs Examples.books)
                (step (Ref.libs Examples.books) initial
                   (Upload "year.xlsx" Examples.two_sheet_book))
                0 "temp/year.xlsx" ["Jan"; "Feb"] None
                (uploaded Examples.two_sheet_book)
                [("Jan", Ok Examples.january); ("Feb", Ok Examples.february)]
                eq_refl eq_refl eq_refl eq_refl eq_refl)
      as (_ & _ & _ & _ & _ & _ & H).
    destruct H as [_ E]; [cbn; lia|reflexivity|exact E].
Defined.

(** ** The self-describing formats *)

(** X4: for a readable [sas7bdat] or [xpt] file [read_file] makes one call to
    the statistical reader and returns its frame, dropping the metadata; it
    never prompts and never looks at [sheet_name]; a failure of the reader is
    raised as it is. *)
Theorem stat_formats_load_directly (L : Libs) (filepath : string)
  (sheet_name : option string) (w : World) (f : file) :
  files w !! filepath = Some f ->
  readable f = true ->
  (ext_of filepath = "sas7bdat" ->
   read_file L filepath sheet_name w
   = (match read_sas7bdat L (content f) with
      | Ok (df, _) => Ok (Some (PyDataFrame df))
      | Raise e => Raise e
      end, extend w [] [CReadSas filepath]))
  /\ (ext_of filepath = "xpt" ->
      read_file L filepath sheet_name w
      = (match read_xport L (content f) with
         | Ok (df, _) => Ok (Some (PyDataFrame df))
         | Raise e => Raise e
         end, extend w [] [CReadXport filepath])).
Proof.
  intros Hf Hr. split; intros Hext; unfold read_file; rewrite Hext; cbn;
    py_unfold; cbn; rewrite Hf, Hr; unfold extend, with_trace;
    rewrite app_nil_r.
  - destruct (read_sas7bdat L (content f)) as [[df m]|e]; reflexivity.
  - destruct (read_xport L (content f)) as [[df m]|e]; reflexivity.
Qed.

Lemma stat_formats_load_directly_witness :
  fst (read_file MoreExamples.stat_libs "temp/study.SAS7BDAT" (Some "ignored")
         (stored "study.SAS7BDAT" "sas octets" initial))
  = Ok (Some (PyDataFrame Examples.people))
  /\ fst (read_file MoreExamples.stat_libs "temp/study.xpt" None
            (stored "study.xpt" "xpt octets" initial))
     = Raise (Exn "ReadstatError"
                "Invalid file, or file has unsupported features").
Proof.
  split.
  - destruct (stat_formats_load_directly MoreExamples.stat_libs
                "temp/study.SAS7BDAT" (Some "ignored")
                (stored "study.SAS7BDAT" "sas octets" initial)
                (uploaded "sas octets") eq_refl eq_refl) as [H _].
    rewrite (H eq_refl). reflexivity.
  - destruct (stat_formats_load_directly MoreExamples.stat_libs
                "temp/study.xpt" None
                (stored "study.xpt" "xpt octets" initial)
                (uploaded "xpt octets") eq_refl eq_refl) as [_ H].
    rewrite (H eq_refl). reflexivity.
Defined.

(** ** The preview table *)

Lemma dict_set_fresh {V} k (v : V) d :
  k ∉ map fst d -> dict_set k v d = d ++ [(k, v)].
Proof.
  induction d as [|[k' v'] d IH]; intros Hk; [reflexivity|].
  cbn in *. apply not_elem_of_cons in Hk as [Hne Hk].
  destruct (String.eqb_spec k' k); [congruence|].
  rewrite (IH Hk). reflexivity.
Qed.

Lemma py_dict_from {V} (items acc : list (string * V)) :
  NoDup (map fst acc ++ map fst items) ->
  fold_left (fun d kv => dict_set (fst kv) (snd kv) d) items acc = acc ++ items.
Proof.
  revert acc. induction items as [|[k v] items IH]; intros acc Hnd.
  - rewrite app_nil_r. reflexivity.
  - cbn [fold_left fst snd].
    rewrite dict_set_fresh.
    + rewrite IH, <- app_assoc; [reflexivity|].
      rewrite map_app, <- app_assoc. exact Hnd.
    + apply NoDup_app in Hnd as (_ & Hdis & _).
      intros Hin. apply (Hdis k Hin). cbn. left.
Qed.

Lemma combine_keys {V} (cols : list string) (r : list V) k :
  k ∈ map fst (combine cols r) -> k ∈ cols.
Proof.
  revert r. induction cols as [|c cols IH]; intros [|x r] Hin; cbn in Hin;
    try (apply elem_of_nil in Hin; contradiction).
  apply elem_of_cons in Hin as [->|Hin]; [left|right; eapply IH, Hin].
Qed.

Lemma combine_keys_NoDup {V} (cols : list string) (r : list V) :
  NoDup cols -> NoDup (map fst (combine cols r)).
Proof.
  revert r. induction cols as [|c cols IH]; intros [|x r] Hnd; cbn;
    try constructor.
  - apply NoDup_cons in Hnd as [Hc _]. intros Hin.
    apply Hc, (combine_keys _ _ _ Hin).
  - apply NoDup_cons in Hnd as [_ Hnd]. apply IH, Hnd.
Qed.

Lemma py_dict_distinct {V} (cols : list string) (r : list V) :
  NoDup cols -> py_dict (combine cols r) = combine cols r.
Proof.
  intros Hnd. unfold py_dict. rewrite py_dict_from; [reflexivity|].
  cbn. apply combine_keys_NoDup, Hnd.
Qed.

(** X5: [display_table] on a frame adds exactly one card and does not
    raise.  The table has the frame's column names in order and its first
    rows in order, ten of them or all when there are fewer; when the column
    names are distinct, each row maps every column name to the value of
    that column. *)
Theorem preview_table_contents (filename : string) (df : DataFrame) (w : World) :
  exists t,
    display_table filename (PyDataFrame df) w
    = (Ok tt, extend w [Card ("Preview of " +:+ filename) (Some t)] [])
    /\ tcolumns t = columns df
    /\ length (trows t) = min 10 (length (rows df))
    /\ (NoDup (columns df) ->
        trows t = map (combine (columns df)) (take 10 (rows df))).
Proof.
  destruct (display_table_run filename (PyDataFrame df) w)
    as (r & c & E & -> & ->).
  eexists. split; [exact E|]. cbn [tcolumns trows].
  split; [reflexivity|]. split.
  - unfold to_dict_records, head. cbn [rows].
    rewrite length_map, length_take. lia.
  - intros Hnd. unfold to_dict_records, head. cbn [rows columns].
    apply map_ext. intros r. apply py_dict_distinct, Hnd.
Qed.

Lemma preview_table_contents_witness :
  exists t,
    display_table "temp/two.csv" (PyDataFrame Examples.two_columns) initial
    = (Ok tt, extend initial [Card "Preview of temp/two.csv" (Some t)] [])
    /\ length (trows t) = 10
    /\ nth_error (trows t) 0 = Some [("a", SInt 1); ("b", SInt 21)].
Proof.
  destruct (preview_table_contents "temp/two.csv" Examples.two_columns initial)
    as (t & E & _ & Hlen & Hrows).
  exists t. split; [exact E|]. split; [exact Hlen|].
  rewrite Hrows; [reflexivity|].
  compute_done.
Defined.

(** With two columns of one name the mapping of a row keeps one entry, with
    the value of the later column. *)
Example twin_columns_collapse :
  to_dict_records MoreExamples.twin_columns = [[("a", SInt 2)]].
Proof. reflexivity. Qed.

(** ** Closing a prompt or a card *)






Lemma step_close_prompt L w c :
  step L w (ClosePrompt c)
  = if match page w !! c with
       | Some e => is_prompt e
       | None => false
       end
    then with_page
           (<[c := Cleared]>
              (imap (fun i e => if bool_decide (i ∈ inside w c) then Deleted
                                else e) (page w))) w
    else w.
Proof.
  unfold step, handler, clear_row.
  destruct (page w !! c) as [[]|]; reflexivity.
Qed.

Lemma step_close_card L w c :
  step L w (CloseCard c)
  = match page w !! c with
    | Some (Card _ (Some _)) => with_page (<[c := Deleted]> (page w)) w
    | _ => w
    end.
Proof.
  unfold step, handler, remove_card, bind, set_element.
  destruct (page w !! c) as [[| | |label [t|]|]|]; try reflexivity.
  cbn. rewrite list_insert_insert_eq. reflexivity.
Qed.

Lemma lookup_cleared_row w c i :
  i <> c ->
  <[c := Cleared]>
    (imap (fun i e => if bool_decide (i ∈ inside w c) then Deleted else e)
       (page w)) !! i
  = (fun e => if bool_decide (i ∈ inside w c) then Deleted else e)
      <$> page w !! i.
Proof.
  intros Hi. rewrite list_lookup_insert_ne by congruence.
  apply list_lookup_imap.
Qed.



(** The card that a sheet prompt's Load button made is inside the prompt's
    row and goes with it; so does a second prompt made by Load without a
    choice, and the card made by that one; closing the inner prompt leaves
    the outer one alone. *)
Example closing_a_prompt_deletes_what_it_loaded :
  let L := Ref.libs Examples.books in
  let w0 := step L initial (Upload "year.xlsx" Examples.two_sheet_book) in
  let w1 := step L w0 (LoadSheet 0 (Some "Feb")) in
  let v1 := step L w0 (LoadSheet 0 None) in
  let v2 := step L v1 (LoadSheet 1 (Some "Jan")) in
  let feb := {| tcolumns := ["day"; "sales"];
                trows := [[("day", SInt 1); ("sales", SInt 12)]] |} in
  page w1 = [SheetPrompt "temp/year.xlsx" ["Jan"; "Feb"];
             Card "Preview of temp/year.xlsx" (Some feb)]
  /\ page (step L w1 (ClosePrompt 0)) = [Cleared; Deleted]
  /\ length (page v2) = 3
  /\ page (step L v2 (ClosePrompt 0)) = [Cleared; Deleted; Deleted]
  /\ page (step L v2 (ClosePrompt 1))
     = [SheetPrompt "temp/year.xlsx" ["Jan"; "Feb"]; Cleared; Deleted].
Proof. vm_compute. repeat split. Qed.

(** ** What is inside a row *)

Lemma foldr_insert_lookup (c : nat) (ids : list nat) (m : gmap nat nat) i :
  foldr (fun i m => <[i := c]> m) m ids !! i
  = if bool_decide (i ∈ ids) then Some c else m !! i.
Proof.
  induction ids as [|j ids IH]; [reflexivity|]. cbn [foldr].
  destruct (decide (i = j)) as [->|Hne].
  - rewrite lookup_insert_eq, bool_decide_eq_true_2 by set_solver. reflexivity.
  - rewrite lookup_insert_ne, IH by congruence.
    destruct (decide (i ∈ ids)) as [Hi|Hi].
    + rewrite !bool_decide_eq_true_2 by set_solver. reflexivity.
    + rewrite !bool_decide_eq_false_2; [reflexivity| |exact Hi].
      intros [?|?]%elem_of_cons; auto.
Qed.

(** After a handler has run inside row [c], the elements it made are inside
    that row, and the others are where they were. *)
Lemma adopt_lookup c first w i :
  parents (adopt c first w) !! i
  = if bool_decide (first <= i < length (page w)) then Some c
    else parents w !! i.
Proof.
  unfold adopt, with_parents. cbn [parents]. rewrite foldr_insert_lookup.
  destruct (decide (first <= i < length (page w))) as [Hi|Hi].
  - rewrite !bool_decide_eq_true_2; [reflexivity|exact Hi|].
    apply elem_of_seq. lia.
  - rewrite !bool_decide_eq_false_2; [reflexivity|exact Hi|].
    rewrite elem_of_seq. lia.
Qed.

Lemma reads_only_parents fp {A} (m : M A) w :
  reads_only fp m ->
  parents (snd (m w)) = parents w
  /\ exists dp, page (snd (m w)) = page w ++ dp.
Proof.
  intros Hm. destruct (Hm (files w !! fp)) as (r & dp & dt & H).
  rewrite (H w eq_refl). split; [reflexivity|exists dp; reflexivity].
Qed.

Lemma reads_only_handle_excel_sheet L fp sn c :
  reads_only fp (handle_excel_sheet L fp sn c).
Proof.
  unfold handle_excel_sheet.
  apply reads_only_bind; [apply reads_only_read_file|intros [v|]].
  - apply reads_only_display_table.
  - apply reads_only_ret.
Qed.

(** What a submission leaves on the page: everything as it was, or the row
    emptied and one card after it. *)
Lemma handle_manual_delimiter_page L fp v c w :
  parents (snd (handle_manual_delimiter L fp v c w)) = parents w
  /\ (page (snd (handle_manual_delimiter L fp v c w)) = page w
      \/ exists card, page (snd (handle_manual_delimiter L fp v c w))
                      = <[c := Cleared]> (page w) ++ [card]).
Proof.
  unfold handle_manual_delimiter, try_except, bind.
  destruct (reads_only_pd_read_csv fp L v (files w !! fp))
    as (r & dp & dt & H).
  pose proof (keeps_page_pd_read_csv L fp v w) as Hp.
  rewrite (H w eq_refl) in *. cbn [snd] in Hp.
  destruct r as [df|e].
  - unfold set_element.
    match goal with |- context [display_table ?fn ?x ?w0] =>
      destruct (display_table_run fn x w0) as (r' & card & Ed & -> & ->);
      rewrite Ed
    end.
    cbn [snd parents page extend with_page] in *. rewrite Hp.
    split; [reflexivity|]. right. eexists. reflexivity.
  - cbn [snd ui_notify parents page with_notes extend] in *.
    split; [reflexivity|]. left. exact Hp.
Qed.

Lemma upload_page L name data w :
  parents (step L w (Upload name data)) = parents w
  /\ exists dp, page (step L w (Upload name data)) = page w ++ dp.
Proof.
  destruct (resolve true (temp_prefix +:+ name)) as [t|e] eqn:Hr.
  - destruct (upload_resolved L name data t Hr) as (dp & dn & dt & E).
    rewrite E. split; [reflexivity|exists dp; reflexivity].
  - rewrite (upload_unresolved L name data w e Hr).
    split; [reflexivity|]. exists []. cbn. rewrite app_nil_r. reflexivity.
Qed.

Lemma step_rows_consistent L w ev :
  rows_consistent w -> rows_consistent (step L w ev).
Proof.
  intros Hw.
  assert (Hgrow : forall w' dp,
            parents w' = parents w -> page w' = page w ++ dp ->
            rows_consistent w').
  { intros w' dp Hp Hg i c Hi. rewrite Hp in Hi.
    destruct (Hw i c Hi) as [Hlt Hno]. rewrite Hg, length_app.
    split; [lia|]. intros fp. rewrite lookup_app_l by exact Hlt. apply Hno. }
  destruct ev as [name data|c v|c v|c|c|].
  - destruct (upload_page L name data w) as (Hp & dp & Hg).
    apply (Hgrow _ dp Hp Hg).
  - unfold step, handler.
    destruct (page w !! c) as [[fp| | | |]|] eqn:Hc; try exact Hw.
    rewrite inside_row_snd.
    destruct (handle_manual_delimiter_page L fp v c w)
      as (Hp & [Hg|(card & Hg)]).
    + intros i c' Hi. rewrite adopt_lookup, Hg in Hi.
      rewrite bool_decide_eq_false_2 in Hi by lia. rewrite Hp in Hi.
      destruct (Hw i c' Hi) as [Hlt Hno].
      unfold adopt, with_parents. cbn [page]. rewrite Hg. auto.
    + pose proof (lookup_lt_Some _ _ _ Hc) as Hlt.
      assert (Hnew : forall c', c' < length (page w) ->
                (c' = c \/ forall fp', page w !! c' <> Some (DelimiterPrompt fp')) ->
                c' < length (<[c:=Cleared]> (page w) ++ [card])
                /\ forall fp', (<[c:=Cleared]> (page w) ++ [card]) !! c'
                               <> Some (DelimiterPrompt fp')).
      { intros c' Hlt' Hc'. rewrite length_app, length_insert.
        split; [lia|]. intros fp'.
        rewrite lookup_app_l by (rewrite length_insert; exact Hlt').
        destruct (decide (c' = c)) as [->|Hne].
        - rewrite list_lookup_insert_eq by exact Hlt. discriminate.
        - rewrite list_lookup_insert_ne by congruence.
          destruct Hc' as [->|Hc']; [contradiction|apply Hc']. }
      intros i c' Hi. rewrite adopt_lookup in Hi.
      unfold adopt, with_parents. cbn [page]. rewrite Hg.
      destruct (bool_decide _) in Hi.
      * injection Hi as <-. apply Hnew; auto.
      * rewrite Hp in Hi. destruct (Hw i c' Hi) as [Hlt' Hno].
        apply Hnew; auto.
  - unfold step, handler.
    destruct (page w !! c) as [[|fp opts| | |]|] eqn:Hc; try exact Hw.
    rewrite inside_row_snd.
    destruct (reads_only_parents fp _ w
                (reads_only_handle_excel_sheet L fp v c)) as (Hp & dp & Hg).
    pose proof (lookup_lt_Some _ _ _ Hc) as Hlt.
    intros i c' Hi. rewrite adopt_lookup in Hi.
    unfold adopt, with_parents. cbn [page]. rewrite Hg, length_app.
    destruct (bool_decide _) in Hi.
    + injection Hi as <-. split; [lia|]. intros fp'.
      rewrite lookup_app_l, Hc by exact Hlt. discriminate.
    + rewrite Hp in Hi. destruct (Hw i c' Hi) as [Hlt' Hno].
      split; [lia|]. intros fp'. rewrite lookup_app_l by exact Hlt'.
      apply Hno.
  - rewrite step_close_prompt.
    destruct (match page w !! c with Some e => is_prompt e | None => false end);
      [|exact Hw].
    intros i c' Hi. cbn [parents page with_page] in *.
    destruct (Hw i c' Hi) as [Hlt Hno].
    rewrite length_insert, length_imap. split; [exact Hlt|]. intros fp'.
    destruct (decide (c' = c)) as [->|Hne].
    + rewrite list_lookup_insert_eq by (rewrite length_imap; exact Hlt).
      discriminate.
    + rewrite (lookup_cleared_row w c c' Hne).
      destruct (page w !! c') as [e|] eqn:He; [|discriminate]. cbn.
      destruct (bool_decide (c' ∈ inside w c)); [discriminate|].
      intros [= ->]. apply (Hno fp'). reflexivity.
  - rewrite step_close_card.
    destruct (page w !! c) as [[| | |label [t|]|]|] eqn:Hc; try exact Hw.
    intros i c' Hi. cbn [parents page with_page] in *.
    destruct (Hw i c' Hi) as [Hlt Hno].
    rewrite length_insert. split; [exact Hlt|]. intros fp'.
    destruct (decide (c' = c)) as [->|Hne].
    + rewrite list_lookup_insert_eq by exact Hlt. discriminate.
    + rewrite list_lookup_insert_ne by congruence. apply Hno.
  - rewrite shutdown_run. intros i c' Hi.
    destruct (temp_exists w); cbn in *; apply (Hw i c' Hi).
Qed.

Lemma removed_by_childless par c ids :
  (forall i, par !! i <> Some c) -> removed_by par c ids ∅ = ∅.
Proof.
  intros Hc. induction ids as [|j ids IH]; [reflexivity|].
  cbn [removed_by]. destruct (par !! j) as [p|] eqn:Hj; [|exact IH].
  rewrite (bool_decide_eq_false_2 (p = c)) by (intros ->; apply (Hc j Hj)).
  rewrite (bool_decide_eq_false_2 (p ∈ (∅ : gset nat)))
    by apply not_elem_of_empty.
  exact IH.
Qed.

(** On the row of a delimiter prompt the two ways to write [clear()] agree:
    there is nothing inside the row to delete. *)
Lemma clear_row_delimiter_prompt w c fp :
  rows_consistent w -> page w !! c = Some (DelimiterPrompt fp) ->
  clear_row c w = set_element c Cleared w.
Proof.
  intros Hw Hc. unfold clear_row, set_element, inside.
  rewrite removed_by_childless.
  - f_equal. f_equal. f_equal. apply list_eq. intros i.
    rewrite list_lookup_imap. destruct (page w !! i); reflexivity.
  - intros i Hi. destruct (Hw i c Hi) as [_ Hno]. apply (Hno fp Hc).
Qed.

(** Nothing is ever built inside the row of a delimiter prompt: its
    [container.clear()] removes the input and the buttons, and nothing
    else. *)
Lemma delimiter_rows_hold_nothing L evs :
  rows_consistent (run L initial evs).
Proof.
  assert (H : forall w, rows_consistent w -> rows_consistent (run L w evs)).
  { induction evs as [|ev evs IH]; intros w Hw; [exact Hw|].
    apply IH, step_rows_consistent, Hw. }
  apply H. intros i c Hi. cbn in Hi. rewrite lookup_empty in Hi. discriminate.
Qed.

(** ** Shutdown *)

(** X7: shutdown removes only what is under [temp/]: every other file is
    kept with its content, and the page, the notifications and the trace are
    untouched.  Afterwards the temp directory is gone and the application is
    stopped, and a second shutdown changes nothing; without a temp directory
    the disk is not touched at all. *)
Theorem shutdown_removes_only_temp (L : Libs) (w : World) :
  let w' := step L w Shutdown in
  (forall path, in_temp path = false -> files w' !! path = files w !! path)
  /\ page w' = page w /\ notes w' = notes w /\ trace w' = trace w
  /\ temp_exists w' = false /\ running w' = false
  /\ step L w' Shutdown = w'
  /\ (temp_exists w = false -> files w' = files w).
Proof.
  cbv zeta. split; [intros path; apply shutdown_outside_temp|].
  rewrite !shutdown_run.
  destruct (temp_exists w) eqn:Ht; cbn; rewrite ?Ht; repeat split; auto.
  discriminate.
Qed.

Lemma shutdown_removes_only_temp_witness :
  let L := Ref.libs [] in
  let w := step L (Examples.on_disk "notes.txt" "keep me")
             (Upload "a.csv" Examples.people_csv) in
  files (step L w Shutdown) !! "notes.txt" = Some (uploaded "keep me")
  /\ files (step L w Shutdown) !! "temp/a.csv" = None.
Proof.
  cbv zeta.
  destruct (shutdown_removes_only_temp (Ref.libs [])
              (step (Ref.libs []) (Examples.on_disk "notes.txt" "keep me")
                 (Upload "a.csv" Examples.people_csv))) as (H & _).
  split; [rewrite H; reflexivity | vm_compute; reflexivity].
Defined.

(** ** Runs *)

Lemma step_outside_temp L w ev path :
  in_temp path = false ->
  match ev with Upload name _ => plain_name name = true | _ => True end ->
  files (step L w ev) !! path = files w !! path.
Proof.
  intros Hout Hplain.
  pose proof (step_keeps_disk L w ev) as Hk.
  destruct ev as [name data|c v|c v|c|c|].
  - destruct (upload_files L w name data) as [_ E]. rewrite E.
    apply stored_files_outside; assumption.
  - destruct Hk as [E _]. rewrite E. reflexivity.
  - destruct Hk as [E _]. rewrite E. reflexivity.
  - destruct Hk as [E _]. rewrite E. reflexivity.
  - destruct Hk as [E _]. rewrite E. reflexivity.
  - apply shutdown_outside_temp, Hout.
Qed.

(** X8: whatever the sequence of events, as long as uploads carry entry
    names, no file outside [temp/] is ever created, changed or removed. *)
Theorem events_confined_to_temp (L : Libs) (evs : list event) (w : World)
  (path : string) :
  plain_uploads evs ->
  in_temp path = false ->
  files (run L w evs) !! path = files w !! path.
Proof.
  intros Hevs Hout. revert w.
  induction Hevs as [|ev evs Hev _ IH]; intros w; [reflexivity|].
  cbn [run fold_left]. fold (run L (step L w ev) evs).
  rewrite IH. apply step_outside_temp; assumption.
Qed.

Lemma events_confined_to_temp_witness :
  files (run (Ref.libs []) (Examples.on_disk "notes.txt" "keep me")
           [Upload "notes.txt" "other"; Upload "e.csv" "";
            SubmitDelimiter 0 ","; Shutdown])
  !! "notes.txt" = Some (uploaded "keep me").
Proof.
  rewrite (events_confined_to_temp (Ref.libs []) _ _ "notes.txt").
  - reflexivity.
  - repeat constructor.
  - reflexivity.
Defined.

(** ** The extension *)

Lemma lower_char_dot a : Ascii.eqb (lower_char a) "." = Ascii.eqb a ".".
Proof. destruct a as [[] [] [] [] [] [] [] []]; reflexivity. Qed.

Lemma lower_char_idem a : lower_char (lower_char a) = lower_char a.
Proof. destruct a as [[] [] [] [] [] [] [] []]; reflexivity. Qed.

Lemma lower_idem s : lower (lower s) = lower s.
Proof.
  induction s as [|a s IH]; [reflexivity|].
  cbn [lower]. rewrite lower_char_idem, IH. reflexivity.
Qed.

Lemma split_lower s : split "." (lower s) = map lower (split "." s).
Proof.
  induction s as [|a s IH]; [reflexivity|].
  cbn [lower split]. rewrite lower_char_dot, IH.
  destruct (Ascii.eqb a "."); [reflexivity|].
  destruct (split "." s) as [|h t]; reflexivity.
Qed.

Lemma last_item_map_lower l : last_item (map lower l) = lower (last_item l).
Proof.
  unfold last_item. induction l as [|x l IH]; [reflexivity|].
  destruct l as [|y l]; [reflexivity|exact IH].
Qed.

Lemma contains_lower s : contains "." (lower s) = contains "." s.
Proof.
  induction s as [|a s IH]; [reflexivity|].
  cbn [lower contains]. rewrite lower_char_dot, IH. reflexivity.
Qed.

Lemma last_item_split_clean c s : contains c (last_item (split c s)) = false.
Proof.
  unfold last_item. induction s as [|a s IH]; [reflexivity|].
  cbn [split]. destruct (Ascii.eqb a c) eqn:Ha.
  - pose proof (split_not_nil c s) as Hne.
    destruct (split c s) as [|h t]; [contradiction|exact IH].
  - pose proof (split_not_nil c s) as Hne.
    destruct (split c s) as [|h t]; [contradiction|].
    destruct t as [|h' t]; [|exact IH].
    cbn in *. rewrite Ha, IH. reflexivity.
Qed.

(** X9: the extension does not depend on the case of the path, is itself in
    lower case and never contains a ['.']; so a path and its lower-cased form
    are supported or rejected alike. *)
Theorem extension_ignores_case (filepath : string) :
  ext_of (lower filepath) = ext_of filepath
  /\ lower (ext_of filepath) = ext_of filepath
  /\ contains "." (ext_of filepath) = false
  /\ is_supported (ext_of (lower filepath)) = is_supported (ext_of filepath).
Proof.
  assert (E : ext_of (lower filepath) = ext_of filepath).
  { unfold ext_of. rewrite split_lower, last_item_map_lower. apply lower_idem. }
  split; [exact E|]. split; [apply lower_idem|]. split; [|rewrite E; reflexivity].
  unfold ext_of. rewrite contains_lower. apply last_item_split_clean.
Qed.

(** X10: a file uploaded under a name without ['.'] is never read: the path
    given to [read_file] starts with the temp directory, so its extension is
    no format name, even when the name itself is one.  The upload stays on
    disk, nothing is added to the page, no library is called and the
    unsupported-format error is notified. *)
Theorem dotless_upload_name_rejected (L : Libs) (name : string) (data : bytes)
  (w : World) :
  contains "." name = false ->
  plain_name name = true ->
  let w' := step L w (Upload name data) in
  is_supported (ext_of (temp_prefix +:+ name)) = false
  /\ notes w' = notes w ++ ["Error: Unsupported file format"]
  /\ page w' = page w
  /\ trace w' = trace w
  /\ files w' !! (temp_prefix +:+ name) = Some (uploaded data).
Proof.
  intros Hdot Hplain. cbv zeta.
  assert (Hext : is_supported (ext_of (temp_prefix +:+ name)) = false).
  { rewrite ext_of_dotless by exact Hdot. reflexivity. }
  split; [exact Hext|].
  rewrite (upload_plain_run L name data w Hplain).
  unfold read_and_display, bind.
  rewrite (read_file_unsupported L _ None _ Hext). cbn.
  repeat split. apply stored_files_lookup with (t := [name; "temp"]).
  apply resolve_plain, Hplain.
Qed.

Lemma dotless_upload_name_rejected_witness :
  notes (step (Ref.libs []) initial (Upload "csv" Examples.people_csv))
  = ["Error: Unsupported file format"]
  /\ fst (read_file (Ref.libs []) "csv" None
            (Examples.on_disk "csv" Examples.people_csv))
     = Ok (Some (PyDataFrame Examples.people)).
Proof.
  destruct (dotless_upload_name_rejected (Ref.libs []) "csv"
              Examples.people_csv initial eq_refl eq_refl)
    as (_ & H & _).
  split; [exact H | vm_compute; reflexivity].
Defined.

(** ** Detection and the sample *)

(** X11: delimiter detection sees a file only through its sample: two
    readable files with the same 2048-character sample get the same answer,
    whatever follows the sample. *)
Theorem detection_depends_on_sample_only (L : Libs) (filepath : string)
  (w1 w2 : World) (f1 f2 : file) :
  files w1 !! filepath = Some f1 ->
  files w2 !! filepath = Some f2 ->
  readable f1 = true ->
  readable f2 = true ->
  read_chars L (content f1) 2048 = read_chars L (content f2) 2048 ->
  fst (detect_csv_delimiter L filepath w1)
  = fst (detect_csv_delimiter L filepath w2).
Proof.
  intros H1 H2 R1 R2 Hs. py_unfold. cbn.
  rewrite H1, H2, R1, R2, Hs.
  destruct (read_chars L (content f2) 2048) as [s|e]; cbn; [|reflexivity].
  destruct (has_header L s) as [[|]|e]; cbn; try reflexivity.
  destruct (sniff L s); reflexivity.
Qed.

Lemma detection_depends_on_sample_only_witness :
  MoreExamples.long_csv <> MoreExamples.long_csv_with_tail
  /\ fst (detect_csv_delimiter (Ref.libs []) "l.csv"
            (Examples.on_disk "l.csv" MoreExamples.long_csv))
     = fst (detect_csv_delimiter (Ref.libs []) "l.csv"
              (Examples.on_disk "l.csv" MoreExamples.long_csv_with_tail)).
Proof.
  split; [vm_compute; discriminate|].
  apply (detection_depends_on_sample_only (Ref.libs []) "l.csv" _ _
           (uploaded MoreExamples.long_csv)
           (uploaded MoreExamples.long_csv_with_tail));
    [reflexivity|reflexivity|reflexivity|reflexivity|vm_compute; reflexivity].
Defined.

(** ** Resuming after a prompt *)

Lemma lookup_appended {A} (l : list A) x : (l ++ [x]) !! length l = Some x.
Proof. rewrite lookup_app_r by lia. rewrite Nat.sub_diag. reflexivity. Qed.

Lemma insert_appended {A} (l : list A) x y :
  <[length l := y]> (l ++ [x]) = l ++ [y].
Proof.
  rewrite insert_app_r_alt by lia. rewrite Nat.sub_diag. reflexivity.
Qed.

Lemma pd_read_csv_run L fp v w f :
  files w !! fp = Some f -> readable f = true ->
  pd_read_csv L fp v w
  = (read_csv L (content f) v HeaderInfer,
     extend w [] [CReadCsv fp v HeaderInfer]).
Proof.
  intros Hf Hr. py_unfold. cbn. rewrite Hf, Hr.
  unfold extend, with_trace. cbn. rewrite app_nil_r. reflexivity.
Qed.

(** X12: a CSV upload whose delimiter cannot be detected is resumed by one
    submission.  The upload leaves a delimiter prompt as the last element of
    the page; submitting there a delimiter with which the file parses
    replaces the prompt by an empty row and adds the preview of the parsed
    file, with no notification. *)
Theorem delimiter_prompt_resumes (L : Libs) (w : World) (name : string)
  (data : bytes) (value : string) (df : DataFrame) :
  plain_name name = true ->
  is_csv_ext (ext_of (temp_prefix +:+ name)) = true ->
  ((exists e, read_chars L data 2048 = Raise e)
   \/ (exists s e, read_chars L data 2048 = Ok s
         /\ (has_header L s = Raise e
             \/ (has_header L s = Ok true /\ sniff L s = Raise e)))) ->
  read_csv L data value HeaderInfer = Ok df ->
  let path := temp_prefix +:+ name in
  let w1 := step L w (Upload name data) in
  let w2 := step L w1 (SubmitDelimiter (length (page w)) value) in
  page w1 = page w ++ [DelimiterPrompt path]
  /\ notes w1 = notes w
  /\ page w2
     = page w ++ [Cleared;
                  Card ("Preview of " +:+ path)
                    (Some {| tcolumns := columns df;
                             trows := to_dict_records (head 10 df) |})]
  /\ notes w2 = notes w.
Proof.
  intros Hplain Hext Hfail Hcsv. cbv zeta.
  assert (E1 : exists dt, step L w (Upload name data)
                 = extend (stored name data w)
                     [DelimiterPrompt (temp_prefix +:+ name)] dt).
  { rewrite (upload_plain_run L name data w Hplain).
    unfold read_and_display, bind.
    rewrite (read_file_csv_arm L _ None Hext).
    rewrite (read_file_csv_run L _ (stored name data w) (uploaded data))
      by (try apply stored_lookup, Hplain; reflexivity).
    cbv zeta. cbn [content uploaded].
    destruct Hfail as [[e ->]|(s & e & -> & [->|[-> ->]])];
      eexists; reflexivity. }
  destruct E1 as (dt & ->).
  split; [reflexivity|]. split; [reflexivity|].
  unfold step, handler. cbn [page extend stored].
  rewrite lookup_appended. in_row.
  unfold handle_manual_delimiter, try_except, bind.
  rewrite (pd_read_csv_run L _ value _ (uploaded data))
    by (try apply stored_lookup, Hplain; reflexivity).
  cbn [content uploaded]. rewrite Hcsv. unfold set_element.
  match goal with |- context [display_table ?fn ?v ?w0] =>
    destruct (display_table_run fn v w0) as (r & c & Ed & -> & ->);
    rewrite Ed
  end.
  cbn. rewrite !app_nil_r, insert_appended, <- app_assoc. split; reflexivity.
Qed.

Lemma delimiter_prompt_resumes_witness :
  let L := Ref.libs [] in
  let w1 := step L initial (Upload "s.csv" Examples.single_column_csv) in
  page w1 = [DelimiterPrompt "temp/s.csv"]
  /\ page (step L w1 (SubmitDelimiter 0 ","))
     = [Cleared;
        Card "Preview of temp/s.csv"
          (Some {| tcolumns := ["x"];
                   trows := [[("x", SInt 1)]; [("x", SInt 2)]] |})].
Proof.
  cbv zeta.
  destruct (delimiter_prompt_resumes (Ref.libs []) initial "s.csv"
              Examples.single_column_csv ","
              {| columns := ["x"]; rows := [[SInt 1]; [SInt 2]] |}
              eq_refl eq_refl) as (H1 & _ & H2 & _).
  - right. exists (Ref.octets Examples.single_column_csv),
      (Exn "Error" "Could not determine delimiter").
    split; [reflexivity|]. left. reflexivity.
  - reflexivity.
  - split; [exact H1 | exact H2].
Defined.

(** X13: the upload of a workbook with two or more sheets is resumed by one
    choice.  The upload leaves a sheet prompt offering every sheet name, in
    workbook order, as the last element of the page; loading there a sheet
    that parses adds the preview of that sheet after the prompt, which stays,
    with no notification. *)
Theorem sheet_prompt_resumes (L : Libs) (w : World) (name : string)
  (data : bytes) (xl : workbook) (sheet : string) (df : DataFrame) :
  plain_name name = true ->
  is_excel_ext (ext_of (temp_prefix +:+ name)) = true ->
  open_workbook L data = Ok xl ->
  2 <= length xl ->
  sheet <> "" ->
  find_sheet sheet xl = Some (Ok df) ->
  let path := temp_prefix +:+ name in
  let w1 := step L w (Upload name data) in
  let w2 := step L w1 (LoadSheet (length (page w)) (Some sheet)) in
  page w1 = page w ++ [SheetPrompt path (sheet_names xl)]
  /\ notes w1 = notes w
  /\ page w2
     = page w ++ [SheetPrompt path (sheet_names xl);
                  Card ("Preview of " +:+ path)
                    (Some {| tcolumns := columns df;
                             trows := to_dict_records (head 10 df) |})]
  /\ notes w2 = notes w.
Proof.
  intros Hplain Hext Hxl Hlen Hsheet Hfind. cbv zeta.
  assert (Hmany : (1 <? length xl)%nat = true)
    by (destruct (Nat.ltb_spec 1 (length xl)); [reflexivity|lia]).
  assert (E1 : step L w (Upload name data)
               = extend (stored name data w)
                   [SheetPrompt (temp_prefix +:+ name) (sheet_names xl)]
                   [CExcelFile (temp_prefix +:+ name)]).
  { rewrite (upload_plain_run L name data w Hplain).
    unfold read_and_display, bind.
    rewrite (read_file_excel_arm L _ None Hext).
    rewrite (read_file_excel_run L _ None (stored name data w)
               (uploaded data) xl)
      by (try apply stored_lookup, Hplain; first [reflexivity|exact Hxl]).
    rewrite Hmany. reflexivity. }
  rewrite E1. split; [reflexivity|]. split; [reflexivity|].
  unfold step, handler. cbn [page extend stored].
  rewrite lookup_appended. in_row.
  unfold handle_excel_sheet, bind.
  rewrite (read_file_excel_arm L _ _ Hext).
  rewrite (read_file_excel_run L _ (Some sheet) _ (uploaded data) xl)
    by (try apply stored_lookup, Hplain; first [reflexivity|exact Hxl]).
  rewrite (truthy_nonempty sheet Hsheet), andb_false_r, Hfind.
  match goal with |- context [display_table ?fn ?v ?w0] =>
    destruct (display_table_run fn v w0) as (r & c & Ed & -> & ->);
    rewrite Ed
  end.
  cbn. rewrite app_nil_r, <- app_assoc. split; reflexivity.
Qed.

Lemma sheet_prompt_resumes_witness :
  let L := Ref.libs Examples.books in
  let w1 := step L initial (Upload "year.xlsx" Examples.two_sheet_book) in
  page w1 = [SheetPrompt "temp/year.xlsx" ["Jan"; "Feb"]]
  /\ page (step L w1 (LoadSheet 0 (Some "Jan")))
     = [SheetPrompt "temp/year.xlsx" ["Jan"; "Feb"];
        Card "Preview of temp/year.xlsx"
          (Some {| tcolumns := ["day"; "sales"];
                   trows := [[("day", SInt 1); ("sales", SInt 10)]] |})].
Proof.
  cbv zeta.
  destruct (sheet_prompt_resumes (Ref.libs Examples.books) initial "year.xlsx"
              Examples.two_sheet_book
              [("Jan", Ok Examples.january); ("Feb", Ok Examples.february)]
              "Jan" Examples.january eq_refl eq_refl eq_refl)
    as (H1 & _ & H2 & _).
  - cbn. lia.
  - discriminate.
  - reflexivity.
  - split; [exact H1 | exact H2].
Defined.
